(** * stock-ai: screening query, result formatter, indicator engine and
      AI narrative adapter, embedded in Rocq.

    Sources embedded here:
    - [app_ubuntu_version_fixed_v7_chart_final_ai_analysis.py]:
      [StockAnalyzer.calculate_technical_indicators], [enhanced_screening],
      [AIAnalyzer.analyze_screening_results],
      [AIAnalyzer._get_demo_screening_analysis];
    - [app.py]: [StockAnalyzer.calculate_technical_indicators] (same text);
    - [app/api/enhanced_api_fixed_v6_..._margin_fix_v2.py]:
      [_check_credit_indicator_columns].

    Modelling conventions.
    - Python [str] and SQLite TEXT values are sequences of Unicode code
      points ([text] = [list N]); SQL clause texts and dictionary keys are
      [string]s (UTF-8 bytes, as in the source file).
    - A binary64 float is an [F]: a finite value carried exactly as a
      rational (no rounding, no overflow), the negative zero, the two
      infinities and NaN.  The special values follow IEEE 754.
    - Python exceptions are the left summand of the monad [M]. *)

From Stdlib Require Import ZArith QArith Qround Qpower List String Ascii Lia.
From stdpp Require Import gmap strings list fin_maps.

Local Open Scope Z_scope.

(** ** Unicode text *)

Module Text.

Definition text := list N.

(** An ASCII literal, one code point per byte. *)
Definition lit (s : string) : text :=
  map N_of_ascii (list_ascii_of_string s).

Definition HYPHEN : N := 45.        (* '-' U+002D *)
Definition PLUS : N := 43.          (* '+' U+002B *)
Definition DOT : N := 46.           (* '.' U+002E *)
Definition BAI : N := 20493.        (* '倍' U+500D *)
Definition MINUS_SIGN : N := 8722.  (* '−' U+2212 *)

Definition text_eqb (a b : text) : bool := bool_decide (a = b).

Fixpoint is_prefix (p s : text) : bool :=
  match p, s with
  | [], _ => true
  | _ :: _, [] => false
  | a :: p', b :: s' => (a =? b)%N && is_prefix p' s'
  end.

(** [replace_go old new skip s]: left-to-right, non-overlapping
    replacement; [skip] counts the characters of a match still to drop. *)
Fixpoint replace_go (old new : text) (skip : nat) (s : text) : text :=
  match s with
  | [] => []
  | c :: s' =>
      match skip with
      | S k => replace_go old new k s'
      | O =>
          if is_prefix old s
          then new ++ replace_go old new (Nat.pred (length old)) s'
          else c :: replace_go old new 0 s'
      end
  end.

(** Python [s.replace(old, new)] and SQLite [REPLACE(s, old, new)] for a
    non-empty [old] (the only use in the source). *)
Definition replace (s old new : text) : text :=
  match old with
  | [] => s
  | _ => replace_go old new 0 s
  end.

Definition is_ascii_digit (c : N) : bool := (48 <=? c)%N && (c <=? 57)%N.

Definition digit_val (c : N) : Z := Z.of_N c - 48.

(** ASCII lower-casing.  [str.lower()] also maps non-ASCII letters, but
    none of them to one of the letters of ['true'], so the test
    [s.lower() == 'true'] is decided by this function. *)
Definition lower_char (c : N) : N :=
  if (65 <=? c)%N && (c <=? 90)%N then (c + 32)%N else c.

Definition lower (s : text) : text := map lower_char s.

End Text.

Export Text.

(** ** Floats *)

Module Float.

Inductive F : Type :=
| Fin (q : Q)        (* a finite value; [Fin 0] is +0.0 *)
| NegZero            (* -0.0 *)
| Inf (neg : bool)   (* +inf, -inf *)
| NaN.

Definition qzero (q : Q) : bool := Qeq_bool q 0.
Definition qneg (q : Q) : bool := (Qnum q <? 0)%Z.

Definition zero_of (neg : bool) : F := if neg then NegZero else Fin 0.

Definition fin (q : Q) : F := Fin (Qred q).

Definition fneg (x : F) : F :=
  match x with
  | Fin q => if qzero q then NegZero else fin (- q)
  | NegZero => Fin 0
  | Inf b => Inf (negb b)
  | NaN => NaN
  end.

Definition fadd (x y : F) : F :=
  match x, y with
  | NaN, _ | _, NaN => NaN
  | Inf a, Inf b => if Bool.eqb a b then Inf a else NaN
  | Inf a, _ => Inf a
  | _, Inf b => Inf b
  | NegZero, NegZero => NegZero
  | NegZero, Fin q => Fin q
  | Fin q, NegZero => Fin q
  | Fin a, Fin b => fin (a + b)
  end.

Definition fsub (x y : F) : F := fadd x (fneg y).

Definition fmul (x y : F) : F :=
  match x, y with
  | NaN, _ | _, NaN => NaN
  | Inf a, Inf b => Inf (xorb a b)
  | Inf a, Fin q | Fin q, Inf a => if qzero q then NaN else Inf (xorb a (qneg q))
  | Inf _, NegZero | NegZero, Inf _ => NaN
  | NegZero, NegZero => Fin 0
  | NegZero, Fin q | Fin q, NegZero => zero_of (negb (qneg q))
  | Fin a, Fin b =>
      if qzero a || qzero b then zero_of (xorb (qneg a) (qneg b))
      else fin (a * b)
  end.

Definition fdiv (x y : F) : F :=
  match x, y with
  | NaN, _ | _, NaN => NaN
  | Inf _, Inf _ => NaN
  | Inf a, Fin q => Inf (xorb a (qneg q))
  | Inf a, NegZero => Inf (negb a)
  | Fin q, Inf b => zero_of (xorb (qneg q) b)
  | NegZero, Inf b => zero_of (negb b)
  | NegZero, NegZero => NaN
  | NegZero, Fin q => if qzero q then NaN else zero_of (negb (qneg q))
  | Fin q, NegZero => if qzero q then NaN else Inf (negb (qneg q))
  | Fin a, Fin b =>
      if qzero b then (if qzero a then NaN else Inf (qneg a))
      else if qzero a then zero_of (qneg b)
      else fin (a / b)
  end.

(** [x < y]; false as soon as one side is NaN. *)
Definition flt (x y : F) : bool :=
  match x, y with
  | NaN, _ | _, NaN => false
  | Inf a, Inf b => a && negb b
  | Inf a, _ => a
  | _, Inf b => negb b
  | NegZero, NegZero => false
  | NegZero, Fin q => negb (qzero q) && negb (qneg q)
  | Fin q, NegZero => qneg q
  | Fin a, Fin b => negb (Qle_bool b a)
  end.

Definition fgt (x y : F) : bool := flt y x.

(** [x <= y]; false as soon as one side is NaN. *)
Definition fle (x y : F) : bool :=
  match x, y with
  | NaN, _ | _, NaN => false
  | _, _ => negb (flt y x)
  end.

Definition is_nan (x : F) : bool :=
  match x with NaN => true | _ => false end.

(** Python truthiness of a float: false exactly for the two zeros. *)
Definition ftruthy (x : F) : bool :=
  match x with
  | Fin q => negb (qzero q)
  | NegZero => false
  | _ => true
  end.

Definition of_Z (z : Z) : F := Fin (inject_Z z).

End Float.

Export Float.

(** ** Exceptions *)

Module Exn.

Inductive exn : Type :=
| ValueError
| TypeError
| KeyError
| IndexError
| AttributeError
| OverflowError
| RequestsTimeout      (* requests.exceptions.Timeout *)
| RequestsError.       (* any other requests exception *)

Definition M (A : Type) : Type := exn + A.

Definition ret {A} (a : A) : M A := inr a.
Definition raise {A} (e : exn) : M A := inl e.

Definition bind {A B} (m : M A) (k : A -> M B) : M B :=
  match m with
  | inl e => inl e
  | inr a => k a
  end.

(** [try: m  except Exception: h e] *)
Definition try_catch {A} (m : M A) (h : exn -> M A) : M A :=
  match m with
  | inl e => h e
  | inr a => inr a
  end.

Definition of_option {A} (e : exn) (o : option A) : M A :=
  match o with
  | Some a => ret a
  | None => raise e
  end.

End Exn.

Export Exn.

Notation "x <- m ;; k" := (bind m (fun x => k))
  (at level 100, m at next level, right associativity).

(** ** Indicator Engine: [StockAnalyzer.calculate_technical_indicators] *)

Module Indicator.

(** A pandas DataFrame as the chart path builds it: the index (one entry
    per date) and the float64 columns in insertion order.  A missing
    observation is [NaN]. *)
Record DataFrame : Type := {
  df_dates : list text;
  df_cols : list (string * list F)
}.

(** [len(df)] *)
Definition df_len (df : DataFrame) : nat := length (df_dates df).

Fixpoint cols_get (k : string) (cols : list (string * list F)) : option (list F) :=
  match cols with
  | [] => None
  | (k', v) :: rest => if String.eqb k k' then Some v else cols_get k rest
  end.

Fixpoint cols_set (k : string) (v : list F) (cols : list (string * list F))
  : list (string * list F) :=
  match cols with
  | [] => [(k, v)]
  | (k', v') :: rest =>
      if String.eqb k k' then (k, v) :: rest else (k', v') :: cols_set k v rest
  end.

(** [df[k]]: KeyError when the column is missing. *)
Definition df_get (df : DataFrame) (k : string) : M (list F) :=
  of_option KeyError (cols_get k (df_cols df)).

(** [df[k] = v] *)
Definition df_set (df : DataFrame) (k : string) (v : list F) : DataFrame :=
  {| df_dates := df_dates df; df_cols := cols_set k v (df_cols df) |}.

Definition has_col (df : DataFrame) (k : string) : bool :=
  match cols_get k (df_cols df) with Some _ => true | None => false end.

(** The [w] observations ending at position [i]. *)
Definition window (w i : nat) (l : list F) : list F :=
  take w (drop (S i - w) l).

(** Sum of a window; [None] as soon as an entry is NaN or infinite. *)
Fixpoint fin_sum (l : list F) : option Q :=
  match l with
  | [] => Some 0%Q
  | Fin q :: r => option_map (Qplus q) (fin_sum r)
  | NegZero :: r => fin_sum r
  | _ :: r => None
  end.

Definition qlen (w : nat) : Q := inject_Z (Z.of_nat w).

(** [s.rolling(window=w).mean()]: NaN on the first [w-1] positions and
    wherever the window holds a missing observation.  Elsewhere the value
    is the exact quotient; the rounding of the running sum that pandas
    keeps is not part of the model. *)
Definition mean_at (w : nat) (l : list F) (i : nat) : F :=
  if (S i <? w)%nat then NaN
  else match fin_sum (window w i l) with
       | Some s => fin (s / qlen w)
       | None => NaN
       end.

Definition rolling_mean (w : nat) (l : list F) : list F :=
  imap (fun i _ => mean_at w l i) l.

Fixpoint fin_sqdev (m : Q) (l : list F) : option Q :=
  match l with
  | [] => Some 0%Q
  | Fin q :: r => option_map (Qplus ((q - m) * (q - m))) (fin_sqdev m r)
  | NegZero :: r => option_map (Qplus (m * m)) (fin_sqdev m r)
  | _ :: r => None
  end.

Section Engine.

(** The floating-point square root of numpy, on finite values. *)
Variable fsqrt : Q -> Q.

(** [s.rolling(window=w).std()]: sample standard deviation (ddof = 1). *)
Definition std_at (w : nat) (l : list F) (i : nat) : F :=
  if (S i <? w)%nat then NaN
  else match fin_sum (window w i l) with
       | Some s =>
           match fin_sqdev (s / qlen w) (window w i l) with
           | Some d => fin (fsqrt (d / qlen (w - 1)))
           | None => NaN
           end
       | None => NaN
       end.

Definition rolling_std (w : nat) (l : list F) : list F :=
  imap (fun i _ => std_at w l i) l.

(** [s.diff()] *)
Fixpoint diff_from (prev : F) (l : list F) : list F :=
  match l with
  | [] => []
  | x :: r => fsub x prev :: diff_from x r
  end.

Definition diff (l : list F) : list F :=
  match l with
  | [] => []
  | x :: r => NaN :: diff_from x r
  end.

(** [s.where(cond, 0)] with [cond] computed pointwise from [s]. *)
Definition where_or_zero (cond : F -> bool) (l : list F) : list F :=
  map (fun x => if cond x then x else Fin 0) l.

(** One step of [s.ewm(span=n, adjust=False).mean()]: the running
    average [weighted] and the weight [old_wt] of the past. *)
Definition ewm_step (alpha : Q) (st : F * Q) (cur : F) : F * Q :=
  let '(weighted, old_wt) := st in
  if is_nan weighted then
    ((if is_nan cur then weighted else cur), old_wt)
  else
    let old_wt := (old_wt * (1 - alpha))%Q in
    if is_nan cur then (weighted, old_wt)
    else
      (fdiv (fadd (fmul (Fin old_wt) weighted) (fmul (Fin alpha) cur))
            (fin (old_wt + alpha)), 1%Q).

Fixpoint ewm_from (alpha : Q) (st : F * Q) (l : list F) : list F :=
  match l with
  | [] => []
  | x :: r => let st' := ewm_step alpha st x in fst st' :: ewm_from alpha st' r
  end.

Definition ewm_mean (span : nat) (l : list F) : list F :=
  match l with
  | [] => []
  | x :: r => x :: ewm_from (2 / qlen (span + 1))%Q (x, 1%Q) r
  end.

(** The two averaged series of the RSI computation. *)
Definition avg_gain (close : list F) : list F :=
  rolling_mean 14 (where_or_zero (fun d => fgt d (Fin 0)) (diff close)).

Definition avg_loss (close : list F) : list F :=
  rolling_mean 14
    (map fneg (where_or_zero (fun d => flt d (Fin 0)) (diff close))).

(** [100 - (100 / (1 + rs))] *)
Definition rsi_of_rs (rs : F) : F :=
  fsub (Fin 100) (fdiv (Fin 100) (fadd (Fin 1) rs)).

Definition calculate_technical_indicators (df : DataFrame) : M DataFrame :=
  if (df_len df <? 5)%nat then ret df
  else
    close <- df_get df "close" ;;
    let df := df_set df "ma5" (rolling_mean 5 close) in
    let df := df_set df "ma20" (rolling_mean 20 close) in
    let df := df_set df "ma25" (rolling_mean 25 close) in
    let df := df_set df "ma50" (rolling_mean 50 close) in
    let df := df_set df "ma75" (rolling_mean 75 close) in
    ma20 <- df_get df "ma20" ;;
    let df := df_set df "bb_middle" ma20 in
    let std := rolling_std 20 close in
    bb_middle <- df_get df "bb_middle" ;;
    let df := df_set df "bb_upper"
                (zip_with fadd bb_middle (map (fun s => fmul s (Fin 2)) std)) in
    let df := df_set df "bb_lower"
                (zip_with fsub bb_middle (map (fun s => fmul s (Fin 2)) std)) in
    let gain := avg_gain close in
    let loss := avg_loss close in
    let rs := zip_with fdiv gain loss in
    let df := df_set df "rsi" (map rsi_of_rs rs) in
    let exp1 := ewm_mean 12 close in
    let exp2 := ewm_mean 26 close in
    let df := df_set df "macd" (zip_with fsub exp1 exp2) in
    macd <- df_get df "macd" ;;
    let df := df_set df "signal" (ewm_mean 9 macd) in
    signal <- df_get df "signal" ;;
    let df := df_set df "histogram" (zip_with fsub macd signal) in
    volume <- df_get df "volume" ;;
    let df := df_set df "volume_ma5" (rolling_mean 5 volume) in
    let df := df_set df "volume_ma20" (rolling_mean 20 volume) in
    ret df.

End Engine.

(** The columns the engine adds. *)
Definition indicator_columns : list string :=
  ["ma5"; "ma20"; "ma25"; "ma50"; "ma75"; "bb_middle"; "bb_upper";
   "bb_lower"; "rsi"; "macd"; "signal"; "histogram"; "volume_ma5";
   "volume_ma20"]%string.

(** Chart Assembler, one point of a series:
    [float(v) if pd.notna(v) else None]. *)
Definition chart_point (v : F) : option F :=
  if is_nan v then None else Some v.

(** A square root on rationals, to six decimals, for running the engine. *)
Definition approx_sqrt (q : Q) : Q :=
  (Z.sqrt (Qfloor (q * 1000000000000)) # 1000000)%Q.

(** A frame as [generate_chart_data] builds it from a close series
    (all other price columns equal to the close, volume constant). *)
Definition frame_of_closes (closes : list Q) : DataFrame :=
  {| df_dates := map (fun _ => lit "2024-01-01") closes;
     df_cols := [("close", map Fin closes);
                 ("volume", map (fun _ => Fin 1000) closes);
                 ("high", map Fin closes);
                 ("low", map Fin closes);
                 ("open", map Fin closes);
                 ("vwap", map Fin closes)]%string |}.

(** The strictly increasing series 1, 2, ..., n. *)
Definition rising (n : nat) : list Q :=
  map (fun k => inject_Z (Z.of_nat k)) (seq 1 n).

Definition is_zero (x : F) : bool :=
  match x with
  | Fin q => qzero q
  | NegZero => true
  | _ => false
  end.

End Indicator.


(** ** Builtins of the Python runtime

    [float], [int], [str] and [str.isdigit] belong to the interpreter and
    its Unicode tables; the embedding takes them as an interface. *)

Class Builtins : Type := {
  (** [float(s)] on a [str]; [None] stands for ValueError. *)
  py_float : text -> option F;
  (** [int(s)] on a [str]; [None] stands for ValueError. *)
  py_int : text -> option Z;
  (** [str(x)] on a float. *)
  py_str_float : F -> text;
  (** One character with Numeric_Type Digit or Decimal. *)
  uni_isdigit : N -> bool
}.

(** ** SQLite values and the scalar functions the screening query uses *)

Module Sqlite.

Inductive sqlval : Type :=
| SNull
| SInt (z : Z)
| SReal (x : F)
| SText (s : text).

Definition is_space (c : N) : bool :=
  (c =? 32)%N || ((9 <=? c)%N && (c <=? 13)%N).

Fixpoint skip_ws (s : text) : text :=
  match s with
  | c :: r => if is_space c then skip_ws r else s
  | [] => []
  end.

Fixpoint span_digits (s : text) : list N * text :=
  match s with
  | c :: r =>
      if is_ascii_digit c
      then let '(d, t) := span_digits r in (c :: d, t)
      else ([], s)
  | [] => ([], [])
  end.

Definition digits_val (ds : list N) : Z :=
  fold_left (fun acc c => 10 * acc + digit_val c) ds 0.

Definition take_sign (s : text) : bool * text :=
  match s with
  | c :: r =>
      if (c =? HYPHEN)%N then (true, r)
      else if (c =? PLUS)%N then (false, r)
      else (false, s)
  | [] => (false, [])
  end.

Definition is_e (c : N) : bool := (c =? 101)%N || (c =? 69)%N.

(** The exponent suffix of a numeric prefix; 0 when there is none. *)
Definition exponent (s : text) : Z :=
  match s with
  | c :: r =>
      if is_e c then
        let '(neg, r') := take_sign r in
        let '(ds, _) := span_digits r' in
        match ds with
        | [] => 0
        | _ => if neg then - digits_val ds else digits_val ds
        end
      else 0
  | [] => 0
  end.

Definition span_fraction (s : text) : list N * text :=
  match s with
  | c :: r => if (c =? DOT)%N then span_digits r else ([], s)
  | [] => ([], [])
  end.

(** [CAST(s AS REAL)] on a TEXT value: the longest prefix that reads as a
    real number, leading spaces ignored; 0.0 when there is no such
    prefix. *)
Definition cast_real (s : text) : Q :=
  let '(neg, s1) := take_sign (skip_ws s) in
  let '(ip, s2) := span_digits s1 in
  let '(fp, s3) := span_fraction s2 in
  match ip ++ fp with
  | [] => 0%Q
  | ds =>
      let m := (inject_Z (digits_val ds)
                * 10 ^ (- Z.of_nat (length fp))
                * 10 ^ (exponent s3))%Q in
      Qred (if neg then - m else m)
  end.

(** A bound parameter of type float as SQLite sees it: NaN is bound as
    NULL. *)
Inductive bound : Type :=
| BNull
| BNum (q : Q)
| BInf (neg : bool).

Definition bind_float (x : F) : bound :=
  match x with
  | Fin q => BNum q
  | NegZero => BNum 0
  | Inf b => BInf b
  | NaN => BNull
  end.

(** [v >= ?] and [v <= ?] in three-valued logic ([None] is NULL). *)
Definition sql_ge (v : option Q) (b : bound) : option bool :=
  match v, b with
  | None, _ | _, BNull => None
  | Some x, BNum q => Some (Qle_bool q x)
  | Some _, BInf neg => Some neg
  end.

Definition sql_le (v : option Q) (b : bound) : option bool :=
  match v, b with
  | None, _ | _, BNull => None
  | Some x, BNum q => Some (Qle_bool x q)
  | Some _, BInf neg => Some (negb neg)
  end.

(** A WHERE conjunct keeps the row only when it is true. *)
Definition keeps (o : option bool) : bool :=
  match o with Some true => true | _ => false end.

End Sqlite.

Export Sqlite.

(** ** A small runtime for running the model on ASCII input *)

Module AsciiRuntime.

Definition strip (s : text) : text := rev (skip_ws (rev (skip_ws s))).

(** [int(s)] for plain decimal notation. *)
Definition ascii_int (s : text) : option Z :=
  let '(neg, s1) := take_sign (strip s) in
  let '(ds, rest) := span_digits s1 in
  match ds, rest with
  | _ :: _, [] => Some (if neg then - digits_val ds else digits_val ds)
  | _, _ => None
  end.

Definition signed_exponent (s : text) : option Z :=
  match s with
  | [] => Some 0
  | c :: r =>
      if is_e c then
        let '(neg, r') := take_sign r in
        let '(ds, rest) := span_digits r' in
        match ds, rest with
        | _ :: _, [] => Some (if neg then - digits_val ds else digits_val ds)
        | _, _ => None
        end
      else None
  end.

(** [float(s)] for decimal notation with optional fraction and exponent,
    and for the spellings of infinity and NaN. *)
Definition ascii_float (s : text) : option F :=
  let '(neg, s1) := take_sign (strip s) in
  let w := lower s1 in
  if text_eqb w (lit "inf") || text_eqb w (lit "infinity") then Some (Inf neg)
  else if text_eqb w (lit "nan") then Some NaN
  else
    let '(ip, s2) := span_digits s1 in
    let '(fp, s3) := span_fraction s2 in
    match ip ++ fp, signed_exponent s3 with
    | (_ :: _) as ds, Some e =>
        let m := (inject_Z (digits_val ds)
                  * 10 ^ (- Z.of_nat (length fp)) * 10 ^ e)%Q in
        Some (if qzero m then zero_of neg
              else fin (if neg then - m else m))
    | _, _ => None
    end.

Fixpoint uint_text (u : Decimal.uint) : text :=
  match u with
  | Decimal.Nil => []
  | Decimal.D0 r => 48%N :: uint_text r
  | Decimal.D1 r => 49%N :: uint_text r
  | Decimal.D2 r => 50%N :: uint_text r
  | Decimal.D3 r => 51%N :: uint_text r
  | Decimal.D4 r => 52%N :: uint_text r
  | Decimal.D5 r => 53%N :: uint_text r
  | Decimal.D6 r => 54%N :: uint_text r
  | Decimal.D7 r => 55%N :: uint_text r
  | Decimal.D8 r => 56%N :: uint_text r
  | Decimal.D9 r => 57%N :: uint_text r
  end.

Definition str_of_N (n : N) : text :=
  match uint_text (N.to_uint n) with
  | [] => [48%N]
  | ds => ds
  end.

Fixpoint frac_digits (fuel : nat) (r d : Z) : text :=
  match fuel with
  | O => []
  | S k =>
      if r =? 0 then []
      else Z.to_N (48 + (10 * r) / d) :: frac_digits k ((10 * r) mod d) d
  end.

(** [str(x)] in positional notation (values whose decimal expansion
    ends within 17 digits). *)
Definition ascii_str_float (x : F) : text :=
  match x with
  | Fin q =>
      let n := Z.abs (Qnum q) in
      let d := Zpos (Qden q) in
      (if qneg q then [HYPHEN] else [])
      ++ str_of_N (Z.to_N (n / d)) ++ [DOT]
      ++ match frac_digits 17 (n mod d) d with
         | [] => [48%N]
         | ds => ds
         end
  | NegZero => lit "-0.0"
  | Inf false => lit "inf"
  | Inf true => lit "-inf"
  | NaN => lit "nan"
  end.

#[export] Instance ascii_builtins : Builtins := {|
  py_float := ascii_float;
  py_int := ascii_int;
  py_str_float := ascii_str_float;
  uni_isdigit := is_ascii_digit
|}.

End AsciiRuntime.

(** ** The screening endpoint: [enhanced_screening] *)

Module Screening.

(** A value bound to a placeholder. *)
Inductive pyval : Type :=
| PStr (s : text)
| PInt (z : Z)
| PFloat (x : F).

(** The Filter Record: the local variables [enhanced_screening] reads
    from the request, in the order it reads them. *)
Record Filters : Type := {
  market : text;
  sector : text;
  min_volume : option Z;
  max_volume : option Z;
  min_market_cap : option F;
  max_market_cap : option F;
  min_per : option F;
  max_per : option F;
  min_pbr : option F;
  max_pbr : option F;
  min_roe : option F;
  max_roe : option F;
  is_credit_issue : option text;
  pattern_vwap_golden_cross : bool;
  pattern_upper_shadow : bool;
  pattern_volume_golden_cross : bool;
  margin_lending_only : bool;
  min_vwap : option F;
  max_vwap : option F;
  min_dividend_yield : option F;
  max_dividend_yield : option F;
  min_volume_ratio : option F;
  max_volume_ratio : option F;
  min_shares_issued : option Z;
  max_shares_issued : option Z
}.

(** *** Clause texts *)

Definition c_market : string := "sd.market = ?".
Definition c_sector : string := "sd.industry = ?".
Definition c_min_volume : string := "sd.volume >= ?".
Definition c_max_volume : string := "sd.volume <= ?".
Definition c_min_market_cap : string := "sd.market_cap >= ?".
Definition c_max_market_cap : string := "sd.market_cap <= ?".
Definition c_min_per : string :=
  "CAST(REPLACE(REPLACE(sd.per, '倍', ''), '-', '') AS REAL) >= ?".
Definition c_max_per : string :=
  "CAST(REPLACE(REPLACE(sd.per, '倍', ''), '-', '') AS REAL) <= ?".
Definition c_min_pbr : string :=
  "CAST(REPLACE(REPLACE(sd.pbr, '倍', ''), '-', '') AS REAL) >= ?".
Definition c_max_pbr : string :=
  "CAST(REPLACE(REPLACE(sd.pbr, '倍', ''), '-', '') AS REAL) <= ?".
Definition c_min_roe : string :=
  "(CASE WHEN sd.eps != 0 AND sd.bps != 0 THEN (sd.eps / sd.bps * 100) ELSE NULL END) >= ?".
Definition c_max_roe : string :=
  "(CASE WHEN sd.eps != 0 AND sd.bps != 0 THEN (sd.eps / sd.bps * 100) ELSE NULL END) <= ?".
Definition c_credit : string :=
  "(CASE WHEN sd.margin_buying IS NOT NULL OR sd.margin_selling IS NOT NULL THEN 1 ELSE 0 END) = ?".
Definition c_min_vwap : string := "sd.vwap >= ?".
Definition c_max_vwap : string := "sd.vwap <= ?".
Definition c_min_dividend_yield : string := "sd.dividend_yield >= ?".
Definition c_max_dividend_yield : string := "sd.dividend_yield <= ?".
Definition c_min_volume_ratio : string := "sd.volume_ratio >= ?".
Definition c_max_volume_ratio : string := "sd.volume_ratio <= ?".
Definition c_min_shares_issued : string := "sd.shares_issued >= ?".
Definition c_max_shares_issued : string := "sd.shares_issued <= ?".
Definition c_vwap_golden_cross : string :=
  "sd.vwap IS NOT NULL AND sd.price > sd.vwap".
Definition c_upper_shadow : string :=
  "(sd.high_price - CASE WHEN sd.open_price > sd.price THEN sd.open_price ELSE sd.price END) > ABS(sd.price - sd.open_price) * 2".
Definition c_bearish : string := "sd.price < sd.open_price".
Definition c_volume_golden_cross : string := "si.volume_golden_cross = 1".
Definition c_margin_lending : string :=
  "(sd.margin_buying IS NOT NULL OR sd.margin_selling IS NOT NULL)".

(** The fixed projection, join and date anchor. *)
Definition base_query : string := "
        SELECT 
            sd.code, 
            sd.name, 
            sd.date AS stock_date, 
            sd.price AS price, 
            sd.change_amount,
            sd.change_percent,
            sd.volume, 
            sd.volume_ratio,
            sd.market_cap,
            sd.per, 
            sd.pbr, 
            CASE 
                WHEN sd.eps != 0 AND sd.bps != 0 THEN (sd.eps / sd.bps * 100)
                ELSE NULL
            END AS roe, 
            sd.industry AS sector, 
            sd.industry, 
            sd.market,
            sd.dividend_yield,
            sd.margin_buying, 
            sd.margin_selling,
            sd.margin_ratio,
            sd.yearly_high,
            sd.yearly_low,
            sd.yearly_low_date,
            sd.shares_issued,
            sd.vwap,
            sd.high_price,
            sd.low_price,
            sd.open_price,
            si.price_deviation_20,
            si.price_deviation_100,
            si.volume_deviation_20,
            si.volume_deviation_100,
            si.stock_lending_repayment_ratio,
            si.jsf_diff_ratio,
            si.short_ratio,
            si.margin_buying_deviation_20,
            si.volume_golden_cross,
            si.price_golden_cross,
            si.ma5,
            si.ma25,
            si.ma50,
            si.ma75,
            si.rsi14,
            si.margin_buying_volume_ratio,
            sd.jsf_loan_balance,
            sd.jsf_stock_lending_balance,
            sd.jsf_net_balance
        FROM stock_database sd
        LEFT JOIN stock_indicators si ON sd.code = si.code AND sd.date = si.date
        WHERE sd.date = (SELECT MAX(date) FROM stock_database)
        ".

(** *** Strings of SQL *)

Fixpoint join (sep : string) (l : list string) : string :=
  match l with
  | [] => ""
  | [x] => x
  | x :: r => x ++ sep ++ join sep r
  end.



Fixpoint contains (p s : string) : bool :=
  String.prefix p s ||
  match s with
  | EmptyString => false
  | String _ r => contains p r
  end.

(** *** Query Builder: the two lists [conditions] and [params] *)

Definition builder : Type := list string * list pyval.

(** [conditions.append(c)] *)
Definition add_condition (c : string) (b : builder) : builder :=
  (fst b ++ [c], snd b).

(** [params.append(p)] *)
Definition add_param (p : pyval) (b : builder) : builder :=
  (fst b, snd b ++ [p]).

(** [if x is not None: conditions.append(c); params.append(x)] *)
Definition add_bound {A} (x : option A) (c : string) (inj : A -> pyval)
           (b : builder) : builder :=
  match x with
  | Some a => add_param (inj a) (add_condition c b)
  | None => b
  end.

(** [if s: conditions.append(c); params.append(s)] *)
Definition add_text (s : text) (c : string) (b : builder) : builder :=
  match s with
  | [] => b
  | _ => add_param (PStr s) (add_condition c b)
  end.

(** [if flag: conditions.append(c)] *)
Definition add_flag (flag : bool) (c : string) (b : builder) : builder :=
  if flag then add_condition c b else b.

Section WithBuiltins.

Context `{Builtins}.

(** *** Filter Collector *)

(** [request.args.get(key, default)] *)
Definition args_get (args : gmap string text) (key : string)
           (default : text) : text :=
  match args !! key with
  | Some s => s
  | None => default
  end.

(** [request.args.get(key, type=int)]: a value the conversion rejects
    gives the default, [None]. *)
Definition args_get_int (args : gmap string text) (key : string)
  : option Z :=
  match args !! key with
  | Some s => py_int s
  | None => None
  end.

(** [request.args.get(key, type=float)] *)
Definition args_get_float (args : gmap string text) (key : string)
  : option F :=
  match args !! key with
  | Some s => py_float s
  | None => None
  end.

(** [request.args.get(key, 'false').lower() == 'true'] *)
Definition args_flag (args : gmap string text) (key : string) : bool :=
  text_eqb (lower (args_get args key (lit "false"))) (lit "true").

Definition collect_filters (args : gmap string text) : Filters := {|
  market := args_get args "market" [];
  sector := args_get args "sector" [];
  min_volume := args_get_int args "min_volume";
  max_volume := args_get_int args "max_volume";
  min_market_cap := args_get_float args "min_market_cap";
  max_market_cap := args_get_float args "max_market_cap";
  min_per := args_get_float args "min_per";
  max_per := args_get_float args "max_per";
  min_pbr := args_get_float args "min_pbr";
  max_pbr := args_get_float args "max_pbr";
  min_roe := args_get_float args "min_roe";
  max_roe := args_get_float args "max_roe";
  is_credit_issue := args !! "is_credit_issue";
  pattern_vwap_golden_cross := args_flag args "pattern_vwap_golden_cross";
  pattern_upper_shadow := args_flag args "pattern_upper_shadow";
  pattern_volume_golden_cross := args_flag args "pattern_volume_golden_cross";
  margin_lending_only := args_flag args "margin_lending_only";
  min_vwap := args_get_float args "min_vwap";
  max_vwap := args_get_float args "max_vwap";
  min_dividend_yield := args_get_float args "min_dividend_yield";
  max_dividend_yield := args_get_float args "max_dividend_yield";
  min_volume_ratio := args_get_float args "min_volume_ratio";
  max_volume_ratio := args_get_float args "max_volume_ratio";
  min_shares_issued := args_get_int args "min_shares_issued";
  max_shares_issued := args_get_int args "max_shares_issued"
|}.

(** *** Query Builder *)

(** [if is_credit_issue is not None: conditions.append(...);
    params.append(int(is_credit_issue))] *)
Definition add_credit (x : option text) (b : builder) : M builder :=
  match x with
  | Some s =>
      let b := add_condition c_credit b in
      n <- of_option ValueError (py_int s) ;;
      ret (add_param (PInt n) b)
  | None => ret b
  end.

Definition build_conditions (f : Filters) : M builder :=
  let b : builder := ([], []) in
  let b := add_text (market f) c_market b in
  let b := add_text (sector f) c_sector b in
  let b := add_bound (min_volume f) c_min_volume PInt b in
  let b := add_bound (max_volume f) c_max_volume PInt b in
  let b := add_bound (min_market_cap f) c_min_market_cap PFloat b in
  let b := add_bound (max_market_cap f) c_max_market_cap PFloat b in
  let b := add_bound (min_per f) c_min_per PFloat b in
  let b := add_bound (max_per f) c_max_per PFloat b in
  let b := add_bound (min_pbr f) c_min_pbr PFloat b in
  let b := add_bound (max_pbr f) c_max_pbr PFloat b in
  let b := add_bound (min_roe f) c_min_roe PFloat b in
  let b := add_bound (max_roe f) c_max_roe PFloat b in
  b <- add_credit (is_credit_issue f) b ;;
  let b := add_bound (min_vwap f) c_min_vwap PFloat b in
  let b := add_bound (max_vwap f) c_max_vwap PFloat b in
  let b := add_bound (min_dividend_yield f) c_min_dividend_yield PFloat b in
  let b := add_bound (max_dividend_yield f) c_max_dividend_yield PFloat b in
  let b := add_bound (min_volume_ratio f) c_min_volume_ratio PFloat b in
  let b := add_bound (max_volume_ratio f) c_max_volume_ratio PFloat b in
  let b := add_bound (min_shares_issued f) c_min_shares_issued PInt b in
  let b := add_bound (max_shares_issued f) c_max_shares_issued PInt b in
  let b := add_flag (pattern_vwap_golden_cross f) c_vwap_golden_cross b in
  let b := add_flag (pattern_upper_shadow f) c_upper_shadow b in
  let b := add_flag (pattern_upper_shadow f) c_bearish b in
  let b := add_flag (pattern_volume_golden_cross f) c_volume_golden_cross b in
  let b := add_flag (margin_lending_only f) c_margin_lending b in
  ret b.

(** [if conditions: query += " AND " + " AND ".join(conditions)] *)
Definition query_text (conditions : list string) : string :=
  match conditions with
  | [] => base_query
  | _ => base_query ++ " AND " ++ join " AND " conditions
  end.

Definition build_query (f : Filters) : M (string * list pyval) :=
  b <- build_conditions f ;;
  ret (query_text (fst b), snd b).

(** *** The filter dimensions, as the design describes them

    One entry per filter dimension, in the order of the conjunction list:
    whether the filter is present, its predicate clause, and the value it
    binds (none for a clause without placeholder).  This table is written
    from the description of the Query Builder, to be compared with
    [build_conditions]. *)

Definition dimension : Type := bool * string * option pyval.

Definition present (d : dimension) : bool := fst (fst d).
Definition clause (d : dimension) : string := snd (fst d).
Definition value (d : dimension) : option pyval := snd d.

Definition given {A} (x : option A) : bool :=
  match x with Some _ => true | None => false end.

Definition nonempty (s : text) : bool :=
  match s with [] => false | _ => true end.

(** [int(is_credit_issue)] when the key was sent and converts. *)
Definition credit_value (f : Filters) : option Z :=
  match is_credit_issue f with
  | Some s => py_int s
  | None => None
  end.

Definition dimensions (f : Filters) : list dimension :=
  [ (nonempty (market f), c_market, Some (PStr (market f)));
    (nonempty (sector f), c_sector, Some (PStr (sector f)));
    (given (min_volume f), c_min_volume, option_map PInt (min_volume f));
    (given (max_volume f), c_max_volume, option_map PInt (max_volume f));
    (given (min_market_cap f), c_min_market_cap, option_map PFloat (min_market_cap f));
    (given (max_market_cap f), c_max_market_cap, option_map PFloat (max_market_cap f));
    (given (min_per f), c_min_per, option_map PFloat (min_per f));
    (given (max_per f), c_max_per, option_map PFloat (max_per f));
    (given (min_pbr f), c_min_pbr, option_map PFloat (min_pbr f));
    (given (max_pbr f), c_max_pbr, option_map PFloat (max_pbr f));
    (given (min_roe f), c_min_roe, option_map PFloat (min_roe f));
    (given (max_roe f), c_max_roe, option_map PFloat (max_roe f));
    (given (is_credit_issue f), c_credit, option_map PInt (credit_value f));
    (given (min_vwap f), c_min_vwap, option_map PFloat (min_vwap f));
    (given (max_vwap f), c_max_vwap, option_map PFloat (max_vwap f));
    (given (min_dividend_yield f), c_min_dividend_yield, option_map PFloat (min_dividend_yield f));
    (given (max_dividend_yield f), c_max_dividend_yield, option_map PFloat (max_dividend_yield f));
    (given (min_volume_ratio f), c_min_volume_ratio, option_map PFloat (min_volume_ratio f));
    (given (max_volume_ratio f), c_max_volume_ratio, option_map PFloat (max_volume_ratio f));
    (given (min_shares_issued f), c_min_shares_issued, option_map PInt (min_shares_issued f));
    (given (max_shares_issued f), c_max_shares_issued, option_map PInt (max_shares_issued f));
    (pattern_vwap_golden_cross f, c_vwap_golden_cross, None);
    (pattern_upper_shadow f, c_upper_shadow, None);
    (pattern_upper_shadow f, c_bearish, None);
    (pattern_volume_golden_cross f, c_volume_golden_cross, None);
    (margin_lending_only f, c_margin_lending, None) ].

(** The dimensions of the request that are present. *)
Definition selected (ds : list dimension) : list dimension :=
  List.filter present ds.



(** The two lists after the present dimensions [ds] have been appended. *)
Definition emitted (ds : list dimension) : builder :=
  (map clause (selected ds), omap value (selected ds)).

(** The credit filter converts: the key is absent, or [int] accepts it. *)
Definition credit_converts (f : Filters) : Prop :=
  is_credit_issue f = None \/
  exists s n, is_credit_issue f = Some s /\ py_int s = Some n.


End WithBuiltins.

(** *** What the PER clauses select

    [CAST(REPLACE(REPLACE(sd.per, '倍', ''), '-', '') AS REAL)] on the
    stored PER text; [None] is SQL NULL. *)
Definition per_expr (per : option text) : option Q :=
  option_map
    (fun s => cast_real (Text.replace (Text.replace s [BAI] []) [HYPHEN] []))
    per.

(** The conjunction of the PER clauses the builder emits for [f], on a
    row whose stored PER is [per]. *)
Definition per_filter_admits (f : Filters) (per : option text) : bool :=
  match min_per f with
  | Some x => keeps (sql_ge (per_expr per) (bind_float x))
  | None => true
  end
  &&
  match max_per f with
  | Some x => keeps (sql_le (per_expr per) (bind_float x))
  | None => true
  end.

(** A text with every ['倍'] and every ['-'] taken out. *)
Definition per_stripped (s : text) : text :=
  List.filter (fun c => negb (HYPHEN =? c)%N)
    (List.filter (fun c => negb (BAI =? c)%N) s).

(** The decimal numeral with integer digits [ip] and fraction digits
    [fp], as text and as a number. *)
Definition decimal_text (ip fp : list N) : text := ip ++ DOT :: fp.

Definition decimal_value (ip fp : list N) : Q :=
  Qred (inject_Z (digits_val (ip ++ fp)) / 10 ^ Z.of_nat (length fp)).

Definition all_digits (ds : list N) : bool := forallb is_ascii_digit ds.


(** The record with no filter set. *)
Definition no_filters : Filters := {|
  market := []; sector := [];
  min_volume := None; max_volume := None;
  min_market_cap := None; max_market_cap := None;
  min_per := None; max_per := None;
  min_pbr := None; max_pbr := None;
  min_roe := None; max_roe := None;
  is_credit_issue := None;
  pattern_vwap_golden_cross := false;
  pattern_upper_shadow := false;
  pattern_volume_golden_cross := false;
  margin_lending_only := false;
  min_vwap := None; max_vwap := None;
  min_dividend_yield := None; max_dividend_yield := None;
  min_volume_ratio := None; max_volume_ratio := None;
  min_shares_issued := None; max_shares_issued := None
|}.

(** The record with only a PER range. *)
Definition with_per (lo hi : option F) : Filters := {|
  market := []; sector := [];
  min_volume := None; max_volume := None;
  min_market_cap := None; max_market_cap := None;
  min_per := lo; max_per := hi;
  min_pbr := None; max_pbr := None;
  min_roe := None; max_roe := None;
  is_credit_issue := None;
  pattern_vwap_golden_cross := false;
  pattern_upper_shadow := false;
  pattern_volume_golden_cross := false;
  margin_lending_only := false;
  min_vwap := None; max_vwap := None;
  min_dividend_yield := None; max_dividend_yield := None;
  min_volume_ratio := None; max_volume_ratio := None;
  min_shares_issued := None; max_shares_issued := None
|}.

(** The stored PER texts of the examples: ["15.5倍"] and the sentinels. *)
Definition per_decorated : text := lit "15.5" ++ [BAI].
Definition per_minus_sign : text := [MINUS_SIGN].
Definition per_hyphen : text := [HYPHEN].

End Screening.

(** ** Result Formatter: the [stock_data] dictionary of [enhanced_screening] *)

Module Formatter.

(** A JSON scalar of the response. *)
Inductive jval : Type :=
| JNull
| JInt (z : Z)
| JFloat (x : F)
| JStr (s : text).

(** A column value passed through unchanged. *)
Definition to_json (v : sqlval) : jval :=
  match v with
  | SNull => JNull
  | SInt z => JInt z
  | SReal x => JFloat x
  | SText s => JStr s
  end.

(** Python truthiness of a column value. *)
Definition truthy (v : sqlval) : bool :=
  match v with
  | SNull => false
  | SInt z => negb (z =? 0)
  | SReal x => ftruthy x
  | SText s => match s with [] => false | _ => true end
  end.

(** [str(n)] on an int. *)
Definition str_of_Z (z : Z) : text :=
  (if z <? 0 then [HYPHEN] else []) ++ AsciiRuntime.str_of_N (Z.abs_N z).

(** The six shapes of an entry of the dictionary literal:
    - [Raw]:          [row[i]]
    - [FloatOrNone]:  [float(row[i]) if row[i] else None]
    - [FloatOrZero]:  [float(row[i]) if row[i] else 0]
    - [IntOrNone]:    [int(row[i]) if row[i] else None]
    - [IntOrZero]:    [int(row[i]) if row[i] else 0]
    - [Ratio]:        [float(row[i]) if row[i] and
                       str(row[i]).replace('.', '').replace('-', '').isdigit()
                       else None] *)
Inductive coercion : Type :=
| Raw
| FloatOrNone
| FloatOrZero
| IntOrNone
| IntOrZero
| Ratio.

(** The dictionary literal: key, position in the row, shape. *)
Definition fields : list (string * nat * coercion) :=
  [
    ("code", 0%nat, Raw);
    ("name", 1%nat, Raw);
    ("stock_date", 2%nat, Raw);
    ("price", 3%nat, FloatOrNone);
    ("change_amount", 4%nat, FloatOrZero);
    ("change_percent", 5%nat, FloatOrZero);
    ("volume", 6%nat, IntOrZero);
    ("volume_ratio", 7%nat, FloatOrNone);
    ("market_cap", 8%nat, FloatOrNone);
    ("per", 9%nat, Ratio);
    ("pbr", 10%nat, Ratio);
    ("roe", 11%nat, FloatOrNone);
    ("sector", 12%nat, Raw);
    ("industry", 13%nat, Raw);
    ("market", 14%nat, Raw);
    ("dividend_yield", 15%nat, FloatOrNone);
    ("margin_buying", 16%nat, IntOrNone);
    ("margin_selling", 17%nat, IntOrNone);
    ("margin_ratio", 18%nat, FloatOrNone);
    ("yearly_high", 19%nat, FloatOrNone);
    ("yearly_low", 20%nat, FloatOrNone);
    ("yearly_low_date", 21%nat, Raw);
    ("shares_issued", 22%nat, IntOrNone);
    ("vwap", 23%nat, FloatOrNone);
    ("high", 24%nat, FloatOrNone);
    ("low", 25%nat, FloatOrNone);
    ("open", 26%nat, FloatOrNone);
    ("price_deviation_20", 27%nat, FloatOrNone);
    ("price_deviation_100", 28%nat, FloatOrNone);
    ("volume_deviation_20", 29%nat, FloatOrNone);
    ("volume_deviation_100", 30%nat, FloatOrNone);
    ("stock_lending_repayment_ratio", 31%nat, FloatOrNone);
    ("jsf_diff_ratio", 32%nat, FloatOrNone);
    ("short_ratio", 33%nat, FloatOrNone);
    ("margin_buying_deviation_20", 34%nat, FloatOrNone);
    ("volume_golden_cross", 35%nat, IntOrZero);
    ("price_golden_cross", 36%nat, IntOrZero);
    ("ma5", 37%nat, FloatOrNone);
    ("ma25", 38%nat, FloatOrNone);
    ("ma50", 39%nat, FloatOrNone);
    ("ma75", 40%nat, FloatOrNone);
    ("rsi14", 41%nat, FloatOrNone);
    ("margin_buying_volume_ratio", 42%nat, FloatOrNone);
    ("jsf_loan_balance", 43%nat, IntOrNone);
    ("jsf_stock_lending_balance", 44%nat, IntOrNone);
    ("jsf_net_balance", 45%nat, IntOrNone)
  ]%string.

Definition record : Type := list (string * jval).

Fixpoint record_get (k : string) (r : record) : option jval :=
  match r with
  | [] => None
  | (k', v) :: rest => if String.eqb k k' then Some v else record_get k rest
  end.

Section WithBuiltins.

Context `{Builtins}.

(** [float(v)] *)
Definition float_of (v : sqlval) : M F :=
  match v with
  | SNull => raise TypeError
  | SInt z => ret (of_Z z)
  | SReal x => ret x
  | SText s => of_option ValueError (py_float s)
  end.

(** [int(v)]: a float is truncated towards zero. *)
Definition int_of (v : sqlval) : M Z :=
  match v with
  | SNull => raise TypeError
  | SInt z => ret z
  | SReal (Fin q) => ret (Z.quot (Qnum q) (Zpos (Qden q)))
  | SReal NegZero => ret 0
  | SReal (Inf _) => raise OverflowError
  | SReal NaN => raise ValueError
  | SText s => of_option ValueError (py_int s)
  end.

(** [str(v)] *)
Definition str_of (v : sqlval) : text :=
  match v with
  | SNull => lit "None"
  | SInt z => str_of_Z z
  | SReal x => py_str_float x
  | SText s => s
  end.

(** [s.isdigit()] *)
Definition str_isdigit (s : text) : bool :=
  match s with
  | [] => false
  | _ => forallb uni_isdigit s
  end.

(** [str(v).replace('.', '').replace('-', '').isdigit()] *)
Definition looks_numeric (v : sqlval) : bool :=
  str_isdigit (Text.replace (Text.replace (str_of v) [DOT] []) [HYPHEN] []).

Definition coerce (c : coercion) (v : sqlval) : M jval :=
  match c with
  | Raw => ret (to_json v)
  | FloatOrNone =>
      if truthy v then x <- float_of v ;; ret (JFloat x) else ret JNull
  | FloatOrZero =>
      if truthy v then x <- float_of v ;; ret (JFloat x) else ret (JInt 0)
  | IntOrNone =>
      if truthy v then n <- int_of v ;; ret (JInt n) else ret JNull
  | IntOrZero =>
      if truthy v then n <- int_of v ;; ret (JInt n) else ret (JInt 0)
  | Ratio =>
      if truthy v && looks_numeric v
      then x <- float_of v ;; ret (JFloat x)
      else ret JNull
  end.

(** [row[i]] *)
Definition row_at (row : list sqlval) (i : nat) : M sqlval :=
  of_option IndexError (row !! i).

Fixpoint format_fields (fs : list (string * nat * coercion))
         (row : list sqlval) : M record :=
  match fs with
  | [] => ret []
  | (k, i, c) :: rest =>
      v <- row_at row i ;;
      j <- coerce c v ;;
      r <- format_fields rest row ;;
      ret ((k, j) :: r)
  end.

Definition format_row (row : list sqlval) : M record :=
  format_fields fields row.

(** [for row in results: ... stocks.append(stock_data)] *)
Fixpoint format_rows (rows : list (list sqlval)) : M (list record) :=
  match rows with
  | [] => ret []
  | row :: rest =>
      r <- format_row row ;;
      rs <- format_rows rest ;;
      ret (r :: rs)
  end.

End WithBuiltins.

(** The numeric entries that default to [None]. *)
Definition null_default_fields : list string :=
  omap (fun e => match e with
                 | (k, _, (FloatOrNone | IntOrNone | Ratio)) => Some k
                 | _ => None
                 end) fields.

(** The entries that default to the number 0. *)
Definition zero_default_fields : list string :=
  omap (fun e => match e with
                 | (k, _, (FloatOrZero | IntOrZero)) => Some k
                 | _ => None
                 end) fields.

(** The two golden-cross flags. *)
Definition flag_fields : list string :=
  ["volume_golden_cross"; "price_golden_cross"]%string.

Fixpoint fields_get (k : string) (fs : list (string * nat * coercion))
  : option (nat * coercion) :=
  match fs with
  | [] => None
  | (k', i, c) :: rest =>
      if String.eqb k k' then Some (i, c) else fields_get k rest
  end.

(** A result row whose columns are all NULL after code, name and date. *)
Definition null_row (code name date : sqlval) : list sqlval :=
  [code; name; date] ++ replicate 43 SNull.

(** The same row with a stored PER. *)
Definition row_with_per (code name date per : sqlval) : list sqlval :=
  <[9%nat := per]> (null_row code name date).

End Formatter.

(** ** The endpoint *)

Module Endpoint.

Import Screening Formatter.

(** [db_connector.execute_query(query, params)] *)
Definition executor : Type :=
  string -> list pyval -> M (list (list sqlval)).

Inductive response : Type :=
| Ok200 (stocks : list record)   (* {'data', 'count', 'status': 'success'} *)
| Unavailable503                 (* the repository is not initialised *)
| Error500 (e : exn).            (* {'error', 'details': str(e), 'status': 'error'} *)

Definition enhanced_screening `{Builtins}
           (stock_data_repository : option executor)
           (args : gmap string text) : response :=
  match stock_data_repository with
  | None => Unavailable503
  | Some execute_query =>
      let run :=
        let f := collect_filters args in
        qp <- build_query f ;;
        results <- execute_query (fst qp) (snd qp) ;;
        format_rows results in
      match run with
      | inr stocks => Ok200 stocks
      | inl e => Error500 e
      end
  end.

(** The eighteen keys read with [type=int] or [type=float]. *)
Definition int_keys : list string :=
  ["min_volume"; "max_volume"; "min_shares_issued"; "max_shares_issued"]%string.

Definition float_keys : list string :=
  ["min_market_cap"; "max_market_cap"; "min_per"; "max_per"; "min_pbr";
   "max_pbr"; "min_roe"; "max_roe"; "min_vwap"; "max_vwap";
   "min_dividend_yield"; "max_dividend_yield"; "min_volume_ratio";
   "max_volume_ratio"]%string.

(** A store with no row. *)
Definition empty_store : executor := fun _ _ => ret [].

End Endpoint.

(** ** Capability Prober: [_check_credit_indicator_columns] *)

Module Capability.

(** [conn.execute("PRAGMA table_info(stock_indicators)")] and the set
    [{col[1] for col in cursor.fetchall()}]; the new map on success, the
    empty map when the probe raises. *)
Definition _check_credit_indicator_columns (table_info : M (list string))
  : gmap string bool :=
  match table_info with
  | inr names =>
      let columns : gset string := list_to_set names in
      let present (k : string) : bool := bool_decide (k ∈ columns) in
      <["stock_lending_repayment_ratio" := present "stock_lending_repayment_ratio"]>
      (<["jsf_diff_ratio" := present "jsf_diff_ratio"]>
      (<["short_ratio" := present "short_ratio"]>
      (<["margin_buying_deviation_20" := present "margin_buying_deviation_20"]>
      (<["volume_golden_cross" := present "volume_golden_cross"]>
      (<["price_golden_cross" := present "price_golden_cross"]>
      (<["vwap_golden_cross" := present "vwap_golden_cross"]>
      (<["margin_buying_volume_ratio" := present "margin_buying_volume_ratio"]>
      (<["margin_category" := present "margin_category"]> ∅))))))))
  | inl _ => ∅
  end.

(** The nine optional columns the probe looks for. *)
Definition probed_columns : list string :=
  ["stock_lending_repayment_ratio"; "jsf_diff_ratio"; "short_ratio";
   "margin_buying_deviation_20"; "volume_golden_cross";
   "price_golden_cross"; "vwap_golden_cross";
   "margin_buying_volume_ratio"; "margin_category"]%string.

(** A capability that is flagged false or missing from the map. *)
Definition unconfirmed (caps : gmap string bool) (k : string) : Prop :=
  caps !! k = Some false \/ caps !! k = None.

End Capability.

(** ** AI Narrative Adapter: [AIAnalyzer.analyze_screening_results] *)

Module Narrative.

(** A parsed JSON document, as [response.json()] and [request.get_json()]
    return it: ints and floats apart, as Python has them; the items of a
    [JsObj] are those of the Python dict. *)
#[warnings="-register-all"]
Inductive json : Type :=
| JsNull
| JsBool (b : bool)
| JsInt (z : Z)
| JsFloat (x : F)
| JsStr (s : text)
| JsArr (items : list json)
| JsObj (items : list (text * json)).

Fixpoint items_get (k : text) (items : list (text * json)) : option json :=
  match items with
  | [] => None
  | (k', v) :: rest => if text_eqb k k' then Some v else items_get k rest
  end.

Fixpoint text_contains (p s : text) : bool :=
  is_prefix p s ||
  match s with
  | [] => false
  | _ :: r => text_contains p r
  end.

Definition is_str (k : text) (x : json) : bool :=
  match x with
  | JsStr s => text_eqb s k
  | _ => false
  end.

(** [k in x] for a str [k] *)
Definition py_in (k : text) (x : json) : M bool :=
  match x with
  | JsObj items =>
      ret (match items_get k items with Some _ => true | None => false end)
  | JsArr items => ret (existsb (is_str k) items)
  | JsStr s => ret (text_contains k s)
  | _ => raise TypeError
  end.

(** [x[k]] for a str [k] *)
Definition get_key (k : text) (x : json) : M json :=
  match x with
  | JsObj items => of_option KeyError (items_get k items)
  | _ => raise TypeError
  end.

(** [x[0]] *)
Definition get_first (x : json) : M json :=
  match x with
  | JsArr (v :: _) => ret v
  | JsArr [] => raise IndexError
  | JsStr (c :: _) => ret (JsStr [c])
  | JsStr [] => raise IndexError
  | JsObj _ => raise KeyError
  | _ => raise TypeError
  end.

(** [len(x)] *)
Definition py_len (x : json) : M nat :=
  match x with
  | JsArr items => ret (length items)
  | JsStr s => ret (length s)
  | JsObj items => ret (length items)
  | _ => raise TypeError
  end.

(** [s.get(k, default)]; of the JSON values only a dict has [get]. *)
Definition py_get (k : text) (default : json) (s : json) : M json :=
  match s with
  | JsObj items =>
      ret (match items_get k items with Some v => v | None => default end)
  | _ => raise AttributeError
  end.

Definition is_none (v : json) : bool :=
  match v with JsNull => true | _ => false end.

(** The numbers among the values; a bool is the int 0 or 1. *)
Inductive num : Type :=
| NInt (z : Z)
| NFloat (x : F).

Definition as_num (v : json) : option num :=
  match v with
  | JsBool b => Some (NInt (if b then 1 else 0))
  | JsInt z => Some (NInt z)
  | JsFloat x => Some (NFloat x)
  | _ => None
  end.

(** [v > n] for an int literal [n]: an order between numbers, a
    TypeError on None, a str, a list or a dict. *)
Definition py_gt (v : json) (n : Z) : M bool :=
  match as_num v with
  | Some (NInt z) => ret (n <? z)
  | Some (NFloat x) => ret (fgt x (of_Z n))
  | None => raise TypeError
  end.

(** *** Text literals *)

Definition NL : N := 10.

(** The code points of a UTF-8 literal. *)
Fixpoint utf8_decode (bs : list N) : text :=
  match bs with
  | [] => []
  | b0 :: r0 =>
      if (b0 <? 128)%N then b0 :: utf8_decode r0
      else
        match r0 with
        | [] => []
        | b1 :: r1 =>
            if (b0 <? 224)%N
            then ((b0 - 192) * 64 + (b1 - 128))%N :: utf8_decode r1
            else
              match r1 with
              | [] => []
              | b2 :: r2 =>
                  if (b0 <? 240)%N
                  then ((b0 - 224) * 4096 + (b1 - 128) * 64
                        + (b2 - 128))%N :: utf8_decode r2
                  else
                    match r2 with
                    | [] => []
                    | b3 :: r3 =>
                        ((b0 - 240) * 262144 + (b1 - 128) * 4096
                         + (b2 - 128) * 64 + (b3 - 128))%N
                        :: utf8_decode r3
                    end
              end
        end
  end.

Definition utf8 (s : string) : text := utf8_decode (lit s).

(** The three fixed texts of [analyze_screening_results] and of its
    fallback. *)
Definition no_stocks_message : text := utf8 "分析対象の銘柄がありません。".

Definition timeout_message : text :=
  utf8 "AI分析がタイムアウトしました。しばらく待ってから再度お試しください。".

Definition demo_title : text := utf8 "【デモ分析】" ++ [NL; NL].

Definition demo_footer : text :=
  [NL] ++ utf8 "※これはデモ分析です。実際のAI分析にはAPIキーの設定が必要です。".

(** *** Python builtins of the fallback

    What a builtin raises on the values it is given; never an exception
    of [requests]. *)
Inductive builtin_error : Type :=
| BuiltinTypeError
| BuiltinValueError
| BuiltinOverflowError.

Definition exn_of (e : builtin_error) : exn :=
  match e with
  | BuiltinTypeError => TypeError
  | BuiltinValueError => ValueError
  | BuiltinOverflowError => OverflowError
  end.

Definition builtin {A} (r : builtin_error + A) : M A :=
  match r with
  | inl e => raise (exn_of e)
  | inr a => ret a
  end.

(** The arithmetic and the formatting of the fallback; their results
    only end up in the text.
    - [py_sum vs]: [sum(vs)]
    - [py_div_len x n]: [x / n] for the length [n] of a list that is not
      empty
    - [py_mul x y]: [x * y]
    - [py_sorted_reverse kvs]: [sorted(vs, key=..., reverse=True)], on
      the items paired with their keys
    - [py_fstr x]: [f"{x}"]
    - [py_ffixed d x]: [f"{x:.<d>f}"] *)
Class Numerics : Type := {
  py_sum : list json -> builtin_error + json;
  py_div_len : json -> positive -> builtin_error + json;
  py_mul : json -> json -> builtin_error + json;
  py_sorted_reverse : list (json * json) -> builtin_error + list json;
  py_fstr : json -> builtin_error + text;
  py_ffixed : nat -> json -> builtin_error + text
}.

(** What [requests.post] hands back: the status and the outcome of
    [response.json()] ([None] when the body does not decode). *)
Record http_response : Type := {
  status_code : Z;
  json_body : option json
}.

(** [not self.api_key] *)
Definition no_credential (api_key : option text) : bool :=
  match api_key with
  | Some (_ :: _) => false
  | _ => true
  end.

(** ['choices' in result and len(result['choices']) > 0] *)
Definition has_choices (result : json) : M bool :=
  present <- py_in (lit "choices") result ;;
  if present then
    choices <- get_key (lit "choices") result ;;
    n <- py_len choices ;;
    ret (0 <? n)%nat
  else ret false.

(** [result['choices'][0]['message']['content']] *)
Definition content_of (result : json) : M json :=
  choices <- get_key (lit "choices") result ;;
  first <- get_first choices ;;
  message <- get_key (lit "message") first ;;
  get_key (lit "content") message.

Definition int_of_len {A} (l : list A) : json := JsInt (Z.of_nat (length l)).

Section Fallback.
Context {NM : Numerics}.

(** [[s.get('change_percent', 0) for s in screening_results
      if s.get('change_percent') is not None]] *)
Fixpoint change_values (screening_results : list json) : M (list json) :=
  match screening_results with
  | [] => ret []
  | s :: rest =>
      c <- py_get (lit "change_percent") JsNull s ;;
      if is_none c then change_values rest
      else
        v <- py_get (lit "change_percent") (JsInt 0) s ;;
        vs <- change_values rest ;;
        ret (v :: vs)
  end.

(** [sum(change_values) / len(change_values) if change_values else 0] *)
Definition avg_change (values : list json) : M json :=
  match values with
  | [] => ret (JsInt 0)
  | _ =>
      total <- builtin (py_sum values) ;;
      builtin (py_div_len total (Pos.of_nat (length values)))
  end.

(** [sum(1 for s in screening_results if s.get('change_percent', 0) > 0)] *)
Fixpoint positive_count (screening_results : list json) : M nat :=
  match screening_results with
  | [] => ret O
  | s :: rest =>
      v <- py_get (lit "change_percent") (JsInt 0) s ;;
      b <- py_gt v 0 ;;
      n <- positive_count rest ;;
      ret (if b then S n else n)
  end.

(** The keys [x.get('change_percent', 0)] that [sorted] computes, each
    with its item. *)
Fixpoint keyed (screening_results : list json) : M (list (json * json)) :=
  match screening_results with
  | [] => ret []
  | s :: rest =>
      k <- py_get (lit "change_percent") (JsInt 0) s ;;
      ks <- keyed rest ;;
      ret ((k, s) :: ks)
  end.

(** [[s for s in screening_results if s.get('volume_ratio', 0) > 150]] *)
Fixpoint high_volume (screening_results : list json) : M (list json) :=
  match screening_results with
  | [] => ret []
  | s :: rest =>
      v <- py_get (lit "volume_ratio") (JsInt 0) s ;;
      b <- py_gt v 150 ;;
      hs <- high_volume rest ;;
      ret (if b then s :: hs else hs)
  end.

(** [f"- {name} ({code}): {change:.2f}%\n"] *)
Definition gainer_line (stock : json) : M text :=
  name <- py_get (lit "name") (JsStr (lit "N/A")) stock ;;
  code <- py_get (lit "code") (JsStr (lit "N/A")) stock ;;
  change <- py_get (lit "change_percent") (JsInt 0) stock ;;
  n <- builtin (py_fstr name) ;;
  c <- builtin (py_fstr code) ;;
  x <- builtin (py_ffixed 2 change) ;;
  ret (lit "- " ++ n ++ lit " (" ++ c ++ lit "): " ++ x ++ lit "%" ++ [NL]).

(** [f"- {name} ({code}): 出来高率 {volume_ratio:.0f}%\n"] *)
Definition volume_line (stock : json) : M text :=
  name <- py_get (lit "name") (JsStr (lit "N/A")) stock ;;
  code <- py_get (lit "code") (JsStr (lit "N/A")) stock ;;
  volume_ratio <- py_get (lit "volume_ratio") (JsInt 0) stock ;;
  n <- builtin (py_fstr name) ;;
  c <- builtin (py_fstr code) ;;
  x <- builtin (py_ffixed 0 volume_ratio) ;;
  ret (lit "- " ++ n ++ lit " (" ++ c ++ utf8 "): 出来高率 " ++ x
       ++ lit "%" ++ [NL]).

(** The lines a [for] loop appends, one stock after the other. *)
Fixpoint lines (line : json -> M text) (stocks : list json) : M text :=
  match stocks with
  | [] => ret []
  | s :: rest =>
      l <- line s ;;
      ls <- lines line rest ;;
      ret (l ++ ls)
  end.

(** The text the body of [if screening_results:] appends. *)
Definition demo_statistics (screening_results : list json) : M text :=
  match screening_results with
  | [] => ret []
  | _ =>
      values <- change_values screening_results ;;
      avg <- avg_change values ;;
      count <- positive_count screening_results ;;
      avg_text <- builtin (py_ffixed 2 avg) ;;
      count_text <- builtin (py_fstr (JsInt (Z.of_nat count))) ;;
      share <- builtin (py_div_len (JsInt (Z.of_nat count))
                          (Pos.of_nat (length screening_results))) ;;
      percent <- builtin (py_mul share (JsInt 100)) ;;
      percent_text <- builtin (py_ffixed 1 percent) ;;
      let statistics :=
        utf8 "◆ 基本統計" ++ [NL]
        ++ utf8 "- 平均前日比: " ++ avg_text ++ lit "%" ++ [NL]
        ++ utf8 "- 上昇銘柄数: " ++ count_text ++ utf8 "銘柄 ("
        ++ percent_text ++ lit "%)" ++ [NL; NL] in
      keys <- keyed screening_results ;;
      sorted <- builtin (py_sorted_reverse keys) ;;
      let top_gainers := take 3 sorted in
      gainers <-
        match top_gainers with
        | [] => ret []
        | _ =>
            ls <- lines gainer_line top_gainers ;;
            ret (utf8 "◆ 上昇率上位銘柄" ++ [NL] ++ ls ++ [NL])
        end ;;
      high <- high_volume screening_results ;;
      volumes <-
        match high with
        | [] => ret []
        | _ =>
            n <- builtin (py_fstr (int_of_len high)) ;;
            ls <- lines volume_line (take 3 high) ;;
            ret (utf8 "◆ 出来高急増銘柄 (" ++ n ++ utf8 "銘柄)" ++ [NL]
                 ++ ls)
        end ;;
      ret (statistics ++ gainers ++ volumes)
  end.

(** The rule-based narrative; [query] is not used. *)
Definition _get_demo_screening_analysis
           (query : text) (screening_results : list json) : M text :=
  n <- builtin (py_fstr (int_of_len screening_results)) ;;
  statistics <- demo_statistics screening_results ;;
  ret (demo_title
       ++ (utf8 "スクリーニング結果 " ++ n
           ++ utf8 "銘柄について分析します。" ++ [NL; NL])
       ++ statistics ++ demo_footer).

(** [return self._get_demo_screening_analysis(query, screening_results)] *)
Definition fallback (query : text) (screening_results : list json)
  : M json :=
  analysis <- _get_demo_screening_analysis query screening_results ;;
  ret (JsStr analysis).

(** The body of the [try] block.  [post] is the outcome of
    [requests.post(self.api_url, ..., timeout=60)]; the prompt is built
    before the call and building it does not raise on a list. *)
Definition analyze_body (api_key : option text) (query : text)
           (screening_results : list json) (post : M http_response)
  : M json :=
  match screening_results with
  | [] => ret (JsStr no_stocks_message)
  | _ =>
      if no_credential api_key
      then fallback query screening_results
      else
        response <- post ;;
        if status_code response =? 200 then
          result <- of_option ValueError (json_body response) ;;
          ok <- has_choices result ;;
          if ok then content_of result
          else fallback query screening_results
        else fallback query screening_results
  end.

(** [except requests.exceptions.Timeout: return "AI分析がタイムアウト..."]
    [except Exception: return self._get_demo_screening_analysis(...)];
    what the second handler raises leaves the function. *)
Definition analyze_screening_results (api_key : option text) (query : text)
           (screening_results : list json) (post : M http_response)
  : M json :=
  match analyze_body api_key query screening_results post with
  | inr analysis => ret analysis
  | inl RequestsTimeout => ret (JsStr timeout_message)
  | inl _ => fallback query screening_results
  end.

End Fallback.

(** The [choices[0].message.content] of the answer, when the call
    returns with status 200 and a body that carries one. *)
Definition content_reached (post : M http_response) : option json :=
  match post with
  | inr response =>
      if status_code response =? 200 then
        match json_body response with
        | Some result =>
            match has_choices result with
            | inr true =>
                match content_of result with
                | inr content => Some content
                | inl _ => None
                end
            | _ => None
            end
        | None => None
        end
      else None
  | inl _ => None
  end.

(** The external dependency failed: the call raised, the status is not
    200, or the body is malformed (it does not decode, or it carries no
    [choices[0].message.content] that is a string). *)
Definition llm_failed (post : M http_response) : bool :=
  match content_reached post with
  | Some (JsStr _) => false
  | _ => true
  end.

(** A computation that does not raise [requests.exceptions.Timeout]. *)
Definition quiet {A} (m : M A) : Prop := m <> raise RequestsTimeout.

Definition timed_out (post : M http_response) : bool :=
  match post with
  | inl RequestsTimeout => true
  | _ => false
  end.

(** A 200 answer whose [choices[0].message.content] is [content]. *)
Definition completion (content : json) : http_response := {|
  status_code := 200;
  json_body :=
    Some (JsObj [(lit "choices",
                  JsArr [JsObj [(lit "message",
                                 JsObj [(lit "content", content)])]])])
|}.

(** A result row with its code, name, day change and volume ratio. *)
Definition stock (code name : string) (change_percent volume_ratio : json)
  : json :=
  JsObj [(lit "code", JsStr (lit code)); (lit "name", JsStr (lit name));
         (lit "change_percent", change_percent);
         (lit "volume_ratio", volume_ratio)].

(** *** A small runtime for running the fallback

    Exact on ints below 2^53 and on finite floats whose sums and
    quotients are representable; [str] of a list or of a dict is left
    out. *)
Module Runtime.

Definition num_Q (n : num) : option Q :=
  match n with
  | NInt z => Some (inject_Z z)
  | NFloat (Fin q) => Some q
  | NFloat NegZero => Some 0%Q
  | NFloat _ => None
  end.

Definition to_float (n : num) : F :=
  match n with
  | NInt z => of_Z z
  | NFloat x => x
  end.

(** [float(n)]: an int past the range of the floats does not convert. *)
Definition float_of_num (n : num) : builtin_error + F :=
  match n with
  | NInt z =>
      if 2 ^ 1024 <=? Z.abs z then inl BuiltinOverflowError
      else inr (of_Z z)
  | NFloat x => inr x
  end.

Definition float_op (op : F -> F -> F) (a b : num) : builtin_error + num :=
  match float_of_num a, float_of_num b with
  | inr x, inr y => inr (NFloat (op x y))
  | inl e, _ | _, inl e => inl e
  end.

Definition num_add (a b : num) : builtin_error + num :=
  match a, b with
  | NInt x, NInt y => inr (NInt (x + y))
  | _, _ => float_op fadd a b
  end.

Definition num_mul (a b : num) : builtin_error + num :=
  match a, b with
  | NInt x, NInt y => inr (NInt (x * y))
  | _, _ => float_op fmul a b
  end.

Definition json_of_num (n : num) : json :=
  match n with
  | NInt z => JsInt z
  | NFloat x => JsFloat x
  end.

Definition json_of_result (r : builtin_error + num) : builtin_error + json :=
  match r with
  | inr n => inr (json_of_num n)
  | inl e => inl e
  end.

Fixpoint sum_from (acc : num) (vs : list json) : builtin_error + num :=
  match vs with
  | [] => inr acc
  | v :: rest =>
      match as_num v with
      | Some n =>
          match num_add acc n with
          | inr acc' => sum_from acc' rest
          | inl e => inl e
          end
      | None => inl BuiltinTypeError
      end
  end.

Definition sum_values (vs : list json) : builtin_error + json :=
  json_of_result (sum_from (NInt 0) vs).

Definition div_len (x : json) (n : positive) : builtin_error + json :=
  match as_num x with
  | Some (NInt z) =>
      if 2 ^ 1024 <=? Z.abs z / Zpos n then inl BuiltinOverflowError
      else inr (JsFloat (fdiv (of_Z z) (of_Z (Zpos n))))
  | Some (NFloat f) => inr (JsFloat (fdiv f (of_Z (Zpos n))))
  | None => inl BuiltinTypeError
  end.

Definition mul (x y : json) : builtin_error + json :=
  match as_num x, as_num y with
  | Some a, Some b => json_of_result (num_mul a b)
  | _, _ => inl BuiltinTypeError
  end.

(** [a < b] between numbers *)
Definition num_lt (a b : num) : bool :=
  match a, b with
  | NInt x, NInt y => x <? y
  | _, _ => flt (to_float a) (to_float b)
  end.

(** Stable insertion in decreasing order of the keys. *)
Fixpoint insert_desc (k : num) (v : json) (l : list (num * json))
  : list (num * json) :=
  match l with
  | [] => [(k, v)]
  | (k', v') :: rest =>
      if num_lt k k' then (k', v') :: insert_desc k v rest
      else (k, v) :: l
  end.

Fixpoint sort_desc (kvs : list (json * json))
  : builtin_error + list (num * json) :=
  match kvs with
  | [] => inr []
  | (k, v) :: rest =>
      match as_num k, sort_desc rest with
      | Some n, inr l => inr (insert_desc n v l)
      | None, _ => inl BuiltinTypeError
      | _, inl e => inl e
      end
  end.

Definition sorted_reverse (kvs : list (json * json))
  : builtin_error + list json :=
  match sort_desc kvs with
  | inr l => inr (map snd l)
  | inl e => inl e
  end.

Definition fstr (x : json) : builtin_error + text :=
  match x with
  | JsNull => inr (lit "None")
  | JsBool true => inr (lit "True")
  | JsBool false => inr (lit "False")
  | JsInt z => inr (Formatter.str_of_Z z)
  | JsFloat f => inr (AsciiRuntime.ascii_str_float f)
  | JsStr s => inr s
  | JsArr _ | JsObj _ => inl BuiltinValueError
  end.

(** The [d] lowest decimal digits of [r]. *)
Fixpoint low_digits (d : nat) (r : Z) : text :=
  match d with
  | O => []
  | S k => low_digits k (r / 10) ++ [Z.to_N (48 + r mod 10)]
  end.

(** [q] in tenths to the power [d], rounded half to even. *)
Definition round_scaled (d : nat) (q : Q) : Z :=
  let n := Z.abs (Qnum q) * 10 ^ Z.of_nat d in
  let den := Zpos (Qden q) in
  let fl := n / den in
  let r := n mod den in
  if 2 * r <? den then fl
  else if den <? 2 * r then fl + 1
  else if Z.even fl then fl else fl + 1.

Definition fixed_text (d : nat) (neg : bool) (scaled : Z) : text :=
  (if neg then [HYPHEN] else [])
  ++ AsciiRuntime.str_of_N (Z.to_N (scaled / 10 ^ Z.of_nat d))
  ++ match d with
     | O => []
     | _ => [DOT] ++ low_digits d scaled
     end.

Definition ffixed (d : nat) (x : json) : builtin_error + text :=
  match x with
  | JsStr _ => inl BuiltinValueError
  | _ =>
      match as_num x with
      | Some (NInt z) =>
          if 2 ^ 1024 <=? Z.abs z then inl BuiltinOverflowError
          else inr (fixed_text d (z <? 0) (Z.abs z * 10 ^ Z.of_nat d))
      | Some (NFloat (Fin q)) => inr (fixed_text d (qneg q) (round_scaled d q))
      | Some (NFloat NegZero) => inr (fixed_text d true 0)
      | Some (NFloat (Inf false)) => inr (lit "inf")
      | Some (NFloat (Inf true)) => inr (lit "-inf")
      | Some (NFloat NaN) => inr (lit "nan")
      | None => inl BuiltinTypeError
      end
  end.

#[export] Instance numerics : Numerics := {|
  py_sum := sum_values;
  py_div_len := div_len;
  py_mul := mul;
  py_sorted_reverse := sorted_reverse;
  py_fstr := fstr;
  py_ffixed := ffixed
|}.

End Runtime.

End Narrative.

(** * Further definitions *)

(** ** Indicator Engine: the moving-average columns and their windows *)

Definition ma_columns : list (string * nat * string) :=
  [("ma5", 5%nat, "close"); ("ma20", 20%nat, "close");
   ("ma25", 25%nat, "close"); ("ma50", 50%nat, "close");
   ("ma75", 75%nat, "close"); ("volume_ma5", 5%nat, "volume");
   ("volume_ma20", 20%nat, "volume")]%string.

(** ** Screening: the fixed clause texts and the recognised keys *)

(** Every clause text [enhanced_screening] can append, in the order of
    the source. *)
Definition fixed_clauses : list string :=
  [ Screening.c_market; Screening.c_sector;
    Screening.c_min_volume; Screening.c_max_volume;
    Screening.c_min_market_cap; Screening.c_max_market_cap;
    Screening.c_min_per; Screening.c_max_per;
    Screening.c_min_pbr; Screening.c_max_pbr;
    Screening.c_min_roe; Screening.c_max_roe;
    Screening.c_credit;
    Screening.c_min_vwap; Screening.c_max_vwap;
    Screening.c_min_dividend_yield; Screening.c_max_dividend_yield;
    Screening.c_min_volume_ratio; Screening.c_max_volume_ratio;
    Screening.c_min_shares_issued; Screening.c_max_shares_issued;
    Screening.c_vwap_golden_cross;
    Screening.c_upper_shadow; Screening.c_bearish;
    Screening.c_volume_golden_cross;
    Screening.c_margin_lending ].

(** The keys [enhanced_screening] reads from the request. *)
Definition recognised_keys : list string :=
  ["market"; "sector"; "min_volume"; "max_volume"; "min_market_cap";
   "max_market_cap"; "min_per"; "max_per"; "min_pbr"; "max_pbr"; "min_roe";
   "max_roe"; "is_credit_issue"; "pattern_vwap_golden_cross";
   "pattern_upper_shadow"; "pattern_volume_golden_cross";
   "margin_lending_only"; "min_vwap"; "max_vwap"; "min_dividend_yield";
   "max_dividend_yield"; "min_volume_ratio"; "max_volume_ratio";
   "min_shares_issued"; "max_shares_issued"]%string.

(** The keys of the [stock_data] dictionary, in the order of the literal. *)
Definition record_keys : list string :=
  map (fun e => fst (fst e)) Formatter.fields.

(** What a column value that Python reads as false looks like. *)
Definition falsy (v : sqlval) : Prop :=
  match v with
  | SNull => True
  | SInt z => z = 0
  | SReal (Fin q) => (q == 0)%Q
  | SReal NegZero => True
  | SReal _ => False
  | SText s => s = []
  end.

(** * Properties *)

(** Examples run on the ASCII runtime; every statement with a [Builtins]
    binder holds for all runtimes. *)
#[local] Existing Instance AsciiRuntime.ascii_builtins.

(** ** Indicator Engine *)

Section IndicatorFacts.
Import Indicator.

Variable fsqrt : Q -> Q.

Lemma cols_get_set k k' v cols :
  cols_get k' (cols_set k v cols) =
  if String.eqb k' k then Some v else cols_get k' cols.
Proof.
  induction cols as [|[k0 v0] rest IH]; simpl.
  - destruct (String.eqb k' k); reflexivity.
  - destruct (String.eqb k k0) eqn:E; simpl.
    + apply String.eqb_eq in E; subst k0.
      destruct (String.eqb k' k); reflexivity.
    + destruct (String.eqb k' k0) eqn:E0.
      * apply String.eqb_eq in E0; subst k0.
        rewrite String.eqb_sym, E. reflexivity.
      * exact IH.
Qed.

Lemma df_get_set df k k' v :
  df_get (df_set df k v) k' =
  if String.eqb k' k then ret v else df_get df k'.
Proof.
  unfold df_get, df_set; simpl. rewrite cols_get_set.
  destruct (String.eqb k' k); reflexivity.
Qed.

(** What the engine computes on a frame of at least five rows that has
    its [close] and [volume] columns. *)
Lemma calculate_long_history df close volume :
  (5 <= df_len df)%nat ->
  df_get df "close" = ret close ->
  df_get df "volume" = ret volume ->
  exists df',
    calculate_technical_indicators fsqrt df = ret df' /\
    df_get df' "ma5" = ret (rolling_mean 5 close) /\
    df_get df' "rsi" =
      ret (map rsi_of_rs (zip_with fdiv (avg_gain close) (avg_loss close))).
Proof.
  intros Hlen Hc Hv. unfold calculate_technical_indicators.
  destruct (Nat.ltb_spec (df_len df) 5) as [Hlt|_]; [lia|].
  rewrite Hc. cbn [bind ret].
  repeat (rewrite !df_get_set; cbn [String.eqb Ascii.eqb Bool.eqb bind ret]).
  rewrite Hv. cbn [bind ret].
  eexists. split; [reflexivity|].
  repeat (rewrite !df_get_set; cbn [String.eqb Ascii.eqb Bool.eqb bind ret]).
  split; reflexivity.
Qed.

End IndicatorFacts.

(** C8. A price history with fewer than five observations is returned
    unchanged: the engine raises nothing and adds no column. *)
Theorem calculate_short_history_unchanged
    (fsqrt : Q -> Q) (df : Indicator.DataFrame) :
  (Indicator.df_len df < 5)%nat ->
  Indicator.calculate_technical_indicators fsqrt df = ret df.
Proof.
  intros H. unfold Indicator.calculate_technical_indicators.
  destruct (Nat.ltb_spec (Indicator.df_len df) 5) as [_|Hge]; [reflexivity|lia].
Qed.

Lemma calculate_short_history_unchanged_witness :
  Indicator.calculate_technical_indicators Indicator.approx_sqrt
    (Indicator.frame_of_closes [100; 101; 99; 102]%Q)
  = ret (Indicator.frame_of_closes [100; 101; 99; 102]%Q).
Proof.
  apply (calculate_short_history_unchanged Indicator.approx_sqrt
           (Indicator.frame_of_closes [100; 101; 99; 102]%Q)).
  vm_compute. lia.
Defined.

Section RsiFacts.
Import Indicator.

Lemma rsi_of_infinite_rs neg : rsi_of_rs (Inf neg) = Fin 100.
Proof. destruct neg; reflexivity. Qed.

Lemma fdiv_positive_by_zero g l :
  fgt g (Fin 0) = true -> is_zero l = true ->
  exists neg, fdiv g l = Inf neg.
Proof.
  intros Hg Hl.
  destruct l as [z| | |]; try discriminate; simpl in Hl.
  - destruct g as [q| |b|]; try discriminate; simpl in *.
    + rewrite Hl.
      destruct (qzero q) eqn:Eq; [|eauto].
      exfalso. unfold fgt, flt in Hg. unfold qzero in Eq.
      apply Qeq_bool_iff in Eq.
      assert (Hle : Qle_bool q 0 = true).
      { apply Qle_bool_iff. rewrite Eq. apply Qle_refl. }
      rewrite Hle in Hg. discriminate.
    + eauto.
  - destruct g as [q| |b|]; try discriminate; simpl in *.
    + destruct (qzero q) eqn:Eq; [|eauto].
      exfalso. unfold fgt, flt in Hg. unfold qzero in Eq.
      apply Qeq_bool_iff in Eq.
      assert (Hle : Qle_bool q 0 = true).
      { apply Qle_bool_iff. rewrite Eq. apply Qle_refl. }
      rewrite Hle in Hg. discriminate.
    + eauto.
Qed.

Lemma fdiv_zero_by_zero g l :
  is_zero g = true -> is_zero l = true -> fdiv g l = NaN.
Proof.
  destruct g as [q| | |], l as [z| | |]; simpl; try discriminate;
    intros Hg Hl; rewrite ?Hg, ?Hl; reflexivity.
Qed.

End RsiFacts.

(** C7 (as the code has it).  Where the 14-day average loss is a zero, the
    RSI is 100 when the average gain is positive (the quotient is an
    infinity) and NaN, charted as null, only when the average gain is a
    zero as well. *)
Theorem rsi_at_zero_average_loss
    (fsqrt : Q -> Q) (df : Indicator.DataFrame) (close volume : list F)
    (i : nat) (g l : F) :
  (5 <= Indicator.df_len df)%nat ->
  Indicator.df_get df "close" = ret close ->
  Indicator.df_get df "volume" = ret volume ->
  Indicator.avg_gain close !! i = Some g ->
  Indicator.avg_loss close !! i = Some l ->
  Indicator.is_zero l = true ->
  exists df' rsi r,
    Indicator.calculate_technical_indicators fsqrt df = ret df' /\
    Indicator.df_get df' "rsi" = ret rsi /\
    rsi !! i = Some r /\
    (fgt g (Fin 0) = true ->
       r = Fin 100 /\ Indicator.chart_point r = Some (Fin 100)) /\
    (Indicator.is_zero g = true ->
       r = NaN /\ Indicator.chart_point r = None).
Proof.
  intros Hlen Hclose Hvol Hg Hl Hz.
  destruct (calculate_long_history fsqrt df close volume)
    as (df' & Hrun & _ & Hrsi); [assumption..|].
  exists df', (map Indicator.rsi_of_rs
                 (zip_with fdiv (Indicator.avg_gain close)
                                (Indicator.avg_loss close))),
         (Indicator.rsi_of_rs (fdiv g l)).
  split; [exact Hrun|]. split; [exact Hrsi|]. split.
  - rewrite list_lookup_fmap, lookup_zip_with, Hg, Hl. reflexivity.
  - split.
    + intros Hpos.
      destruct (fdiv_positive_by_zero g l Hpos Hz) as [neg ->].
      rewrite rsi_of_infinite_rs. split; reflexivity.
    + intros Hg0. rewrite (fdiv_zero_by_zero g l Hg0 Hz).
      split; reflexivity.
Qed.

Lemma rsi_at_zero_average_loss_witness :
  exists df' rsi r,
    Indicator.calculate_technical_indicators Indicator.approx_sqrt
      (Indicator.frame_of_closes (Indicator.rising 14)) = ret df' /\
    Indicator.df_get df' "rsi" = ret rsi /\
    rsi !! 13%nat = Some r /\
    (fgt (Fin (13 # 14)) (Fin 0) = true ->
       r = Fin 100 /\ Indicator.chart_point r = Some (Fin 100)) /\
    (Indicator.is_zero (Fin (13 # 14)) = true ->
       r = NaN /\ Indicator.chart_point r = None).
Proof.
  apply (rsi_at_zero_average_loss Indicator.approx_sqrt
           (Indicator.frame_of_closes (Indicator.rising 14))
           (map Fin (Indicator.rising 14))
           (map (fun _ => Fin 1000) (Indicator.rising 14))
           13%nat (Fin (13 # 14)) (Fin 0));
    vm_compute; solve [reflexivity | lia].
Defined.

(** C7, the claim as stated, at a strictly increasing series of 14 closes:
    the average loss of the last day is zero and the RSI there is 100,
    charted as the number 100 and not as null. *)
Lemma rsi_of_rising_series_is_100 :
  exists df' rsi,
    Indicator.calculate_technical_indicators Indicator.approx_sqrt
      (Indicator.frame_of_closes (Indicator.rising 14)) = ret df' /\
    Indicator.df_get df' "rsi" = ret rsi /\
    Indicator.avg_loss (map Fin (Indicator.rising 14)) !! 13%nat
      = Some (Fin 0) /\
    rsi !! 13%nat = Some (Fin 100) /\
    Indicator.chart_point (Fin 100) <> None.
Proof.
  eexists. eexists.
  split; [vm_compute; reflexivity|].
  split; [vm_compute; reflexivity|].
  split; [vm_compute; reflexivity|].
  split; [vm_compute; reflexivity|].
  discriminate.
Qed.

(** ** Query Builder *)

Section BuilderFacts.
Import Screening.
Context `{Builtins}.

Lemma ret_inj {A} (a b : A) : ret a = ret b -> a = b.
Proof. intros E. injection E as E. exact E. Qed.

Lemma pair_inj {A B} (a a' : A) (b b' : B) :
  (a, b) = (a', b') -> a = a' /\ b = b'.
Proof. intros E. injection E as E1 E2. split; assumption. Qed.

Lemma selected_snoc ds d :
  selected (ds ++ [d]) = selected ds ++ (if present d then [d] else []).
Proof.
  unfold selected. rewrite List.filter_app. simpl.
  destruct (present d); reflexivity.
Qed.

Lemma emitted_snoc_absent ds c v :
  emitted (ds ++ [(false, c, v)]) = emitted ds.
Proof.
  unfold emitted. rewrite selected_snoc. simpl. rewrite app_nil_r. reflexivity.
Qed.

Lemma emitted_snoc_value ds c p :
  emitted (ds ++ [(true, c, Some p)])
  = add_param p (add_condition c (emitted ds)).
Proof.
  unfold emitted, add_param, add_condition. rewrite selected_snoc. simpl.
  rewrite map_app, omap_app. reflexivity.
Qed.

Lemma emitted_snoc_flag ds c :
  emitted (ds ++ [(true, c, None)]) = add_condition c (emitted ds).
Proof.
  unfold emitted, add_condition. rewrite selected_snoc. simpl.
  rewrite map_app, omap_app. simpl. rewrite app_nil_r. reflexivity.
Qed.

Lemma add_bound_emitted {A} (x : option A) c inj ds :
  add_bound x c inj (emitted ds)
  = emitted (ds ++ [(given x, c, option_map inj x)]).
Proof.
  destruct x; simpl.
  - rewrite emitted_snoc_value. reflexivity.
  - rewrite emitted_snoc_absent. reflexivity.
Qed.

Lemma add_text_emitted s c ds :
  add_text s c (emitted ds) = emitted (ds ++ [(nonempty s, c, Some (PStr s))]).
Proof.
  destruct s; simpl.
  - rewrite emitted_snoc_absent. reflexivity.
  - rewrite emitted_snoc_value. reflexivity.
Qed.

Lemma add_flag_emitted flag c ds :
  add_flag flag c (emitted ds) = emitted (ds ++ [(flag, c, None)]).
Proof.
  destruct flag; simpl.
  - rewrite emitted_snoc_flag. reflexivity.
  - rewrite emitted_snoc_absent. reflexivity.
Qed.

Lemma add_credit_emitted f ds :
  credit_converts f ->
  add_credit (is_credit_issue f) (emitted ds)
  = ret (emitted (ds ++ [(given (is_credit_issue f), c_credit,
                          option_map PInt (credit_value f))])).
Proof.
  unfold credit_value, add_credit.
  intros [Hn | (s & n & Hs & Hp)].
  - rewrite Hn. simpl. rewrite emitted_snoc_absent. reflexivity.
  - rewrite Hs, Hp. simpl. rewrite emitted_snoc_value. reflexivity.
Qed.

Lemma add_credit_raises f b s :
  is_credit_issue f = Some s -> py_int s = None ->
  add_credit (is_credit_issue f) b = raise ValueError.
Proof. intros Hs Hp. unfold add_credit. rewrite Hs, Hp. reflexivity. Qed.

(** [build_conditions] appends exactly the present dimensions of the
    table, clause and value side by side. *)
Lemma build_conditions_emits f :
  credit_converts f ->
  build_conditions f = ret (emitted (dimensions f)).
Proof.
  intros Hc. unfold build_conditions.
  change (@nil string, @nil pyval) with (emitted []).
  rewrite !add_text_emitted, !add_bound_emitted.
  rewrite (add_credit_emitted f _ Hc). cbn [bind ret].
  rewrite !add_bound_emitted, !add_flag_emitted.
  reflexivity.
Qed.

Lemma build_conditions_raises f s :
  is_credit_issue f = Some s -> py_int s = None ->
  build_conditions f = raise ValueError.
Proof.
  intros Hs Hp. unfold build_conditions.
  rewrite (add_credit_raises f _ s Hs Hp). reflexivity.
Qed.

Lemma build_conditions_returns f b :
  build_conditions f = ret b -> credit_converts f.
Proof.
  intros Hb. unfold credit_converts.
  destruct (is_credit_issue f) as [s|] eqn:Hs; [|left; reflexivity].
  destruct (py_int s) as [n|] eqn:Hp; [right; eauto|].
  rewrite (build_conditions_raises f s Hs Hp) in Hb. discriminate.
Qed.

End BuilderFacts.

Section PlaceholderFacts.
Import Screening.
Context `{Builtins}.








End PlaceholderFacts.



(** ** Capability map and the volume golden-cross predicate *)

Section CapabilityFacts.
Import Screening Capability.
Context `{Builtins}.

Lemma prefix_app_l (p a b : string) :
  String.prefix p a = true -> String.prefix p (a ++ b) = true.
Proof.
  revert a. induction p as [|x p IH]; intros a Hp.
  - destruct (a ++ b)%string; reflexivity.
  - destruct a as [|y a]; simpl in *; [discriminate|].
    destruct (ascii_dec x y); [apply IH; exact Hp | discriminate].
Qed.

Lemma contains_app_l (p a b : string) :
  contains p a = true -> contains p (a ++ b) = true.
Proof.
  induction a as [|y a IH]; intros Hc.
  - simpl in Hc. rewrite orb_false_r in Hc.
    destruct p; [|discriminate]. destruct b; reflexivity.
  - cbn [contains] in Hc. apply orb_true_iff in Hc.
    change (String y a ++ b)%string with (String y (a ++ b)).
    cbn [contains]. apply orb_true_iff.
    destruct Hc as [Hp | Hr].
    + left. apply (prefix_app_l p (String y a) b Hp).
    + right. apply IH, Hr.
Qed.

Lemma base_projection_in_query_text (cs : list string) :
  contains "si.volume_golden_cross" (query_text cs) = true.
Proof.
  destruct cs as [|c r]; [vm_compute; reflexivity|].
  unfold query_text. apply contains_app_l. vm_compute. reflexivity.
Qed.

Lemma in_selected_clauses c (ds : list dimension) :
  In c (map clause (selected ds))
  <-> existsb (fun d => present d && String.eqb (clause d) c) ds = true.
Proof.
  unfold selected.
  induction ds as [|d r IH]; [simpl; split; [tauto|discriminate]|].
  cbn [List.filter existsb].
  destruct (present d) eqn:Hp; cbn [andb orb map In].
  - rewrite IH. destruct (String.eqb_spec (clause d) c) as [E|E]; cbn [orb].
    + tauto.
    + split; [intros [?|?]; [contradiction|assumption] | tauto].
  - exact IH.
Qed.

Lemma volume_golden_cross_among_dimensions f :
  existsb (fun d => present d
                    && String.eqb (clause d) c_volume_golden_cross)
          (dimensions f)
  = pattern_volume_golden_cross f.
Proof.
  unfold dimensions. cbn [existsb clause present fst snd].
  repeat match goal with
         | |- context [String.eqb ?a ?b] =>
             let r := eval vm_compute in (String.eqb a b) in
             change (String.eqb a b) with r
         end.
  rewrite !andb_false_r, andb_true_r. cbn [orb].
  rewrite orb_false_r. reflexivity.
Qed.

Lemma volume_golden_cross_selected f :
  In c_volume_golden_cross (map clause (selected (dimensions f)))
  <-> pattern_volume_golden_cross f = true.
Proof.
  rewrite in_selected_clauses, volume_golden_cross_among_dimensions.
  reflexivity.
Qed.

Lemma probe_lookup (names : list string) (k : string) :
  In k probed_columns ->
  _check_credit_indicator_columns (ret names) !! k
  = Some (bool_decide (k ∈ names)).
Proof.
  intros Hk. unfold _check_credit_indicator_columns, ret.
  assert (Hset : forall x : string,
             bool_decide (x ∈ (list_to_set names : gset string))
             = bool_decide (x ∈ names)).
  { intros x. apply bool_decide_ext. apply elem_of_list_to_set. }
  unfold probed_columns in Hk. cbn [In] in Hk.
  repeat (destruct Hk as [<- | Hk];
          [ repeat (first [ rewrite lookup_insert_eq
                          | rewrite lookup_insert_ne by discriminate ]);
            rewrite Hset; reflexivity | ]).
  destruct Hk.
Qed.

End CapabilityFacts.

(** C2 (as the code has it).  The probe flags each of its nine optional
    columns true exactly when the indicator table has a column of that
    name and returns the empty map when it raises; the query
    [enhanced_screening] builds does not depend on that map: its
    projection always names [si.volume_golden_cross], and the predicate
    [si.volume_golden_cross = 1] is among the conditions exactly when
    [pattern_volume_golden_cross] is requested. *)
Theorem volume_golden_cross_not_gated `{Builtins}
    (f : Screening.Filters) (cs : list string) (ps : list Screening.pyval) :
  Screening.build_conditions f = ret (cs, ps) ->
  (forall (names : list string) (k : string),
     In k Capability.probed_columns ->
     Capability._check_credit_indicator_columns (ret names) !! k
     = Some (bool_decide (k ∈ names))) /\
  (forall e, Capability._check_credit_indicator_columns (raise e) = ∅) /\
  Screening.contains "si.volume_golden_cross" (Screening.query_text cs) = true /\
  (In Screening.c_volume_golden_cross cs
   <-> Screening.pattern_volume_golden_cross f = true).
Proof.
  intros Hb.
  pose proof (build_conditions_returns f _ Hb) as Hc.
  rewrite (build_conditions_emits f Hc) in Hb.
  apply ret_inj in Hb. unfold Screening.emitted in Hb.
  apply pair_inj in Hb. destruct Hb as [Hcs _]. subst cs.
  split; [|split; [|split]].
  - intros names k Hk. apply probe_lookup. exact Hk.
  - intros e. reflexivity.
  - apply base_projection_in_query_text.
  - apply volume_golden_cross_selected.
Qed.

Lemma volume_golden_cross_not_gated_witness :
  let f := Screening.collect_filters
             (<["pattern_volume_golden_cross" := lit "true"]> ∅) in
  (forall (names : list string) (k : string),
     In k Capability.probed_columns ->
     Capability._check_credit_indicator_columns (ret names) !! k
     = Some (bool_decide (k ∈ names))) /\
  (forall e, Capability._check_credit_indicator_columns (raise e) = ∅) /\
  Screening.contains "si.volume_golden_cross"
    (Screening.query_text [Screening.c_volume_golden_cross]) = true /\
  (In Screening.c_volume_golden_cross [Screening.c_volume_golden_cross]
   <-> Screening.pattern_volume_golden_cross f = true).
Proof.
  intros f.
  apply (@volume_golden_cross_not_gated AsciiRuntime.ascii_builtins f
           [Screening.c_volume_golden_cross] []).
  vm_compute. reflexivity.
Defined.

(** C2, the claim as stated, on an indicator table without the column:
    the capability is flagged false, the pattern is requested, and the
    generated SQL still carries the predicate on the column. *)
Lemma volume_golden_cross_emitted_without_column :
  let caps := Capability._check_credit_indicator_columns
                (ret ["code"; "date"; "price_golden_cross"]%string) in
  let f := @Screening.collect_filters AsciiRuntime.ascii_builtins
             (<["pattern_volume_golden_cross" := lit "true"]> ∅) in
  caps !! "volume_golden_cross"%string = Some false /\
  exists q ps,
    @Screening.build_query AsciiRuntime.ascii_builtins f = ret (q, ps) /\
    Screening.contains "si.volume_golden_cross = 1" q = true.
Proof.
  split; [vm_compute; reflexivity|].
  eexists. eexists. split; vm_compute; reflexivity.
Qed.

(** ** PER predicate *)

Section PerFacts.
Import Screening.

Lemma replace_char_is_filter (s : text) (d : N) :
  Text.replace s [d] [] = List.filter (fun c => negb (d =? c)%N) s.
Proof.
  unfold Text.replace. induction s as [|x s IH]; [reflexivity|].
  cbn [replace_go is_prefix List.filter].
  destruct (d =? x)%N; cbn [andb negb app length Nat.pred].
  - exact IH.
  - rewrite IH. reflexivity.
Qed.

Lemma per_expr_stripped (s : text) :
  per_expr (Some s) = Some (cast_real (per_stripped s)).
Proof.
  unfold per_expr, per_stripped, option_map.
  rewrite !replace_char_is_filter. reflexivity.
Qed.

Lemma per_stripped_app (a b : text) :
  per_stripped (a ++ b) = per_stripped a ++ per_stripped b.
Proof. unfold per_stripped. rewrite !List.filter_app. reflexivity. Qed.

Lemma per_stripped_unit : per_stripped [BAI] = [].
Proof. reflexivity. Qed.

Lemma per_stripped_hyphen : per_stripped [HYPHEN] = [].
Proof. reflexivity. Qed.

Lemma per_stripped_drops (pre post : text) (c : N) :
  c = HYPHEN \/ c = BAI ->
  per_stripped (pre ++ c :: post) = per_stripped (pre ++ post).
Proof.
  intros Hc. change (c :: post) with ([c] ++ post).
  rewrite !per_stripped_app.
  destruct Hc as [-> | ->]; reflexivity.
Qed.

Lemma per_stripped_plain (t : text) :
  ~ In BAI t -> ~ In HYPHEN t -> per_stripped t = t.
Proof.
  intros Hb Hh. induction t as [|c t IH]; [reflexivity|].
  change (c :: t) with ([c] ++ t). rewrite per_stripped_app.
  rewrite IH.
  - f_equal. unfold per_stripped. cbn [List.filter].
    destruct (BAI =? c)%N eqn:E1.
    { apply N.eqb_eq in E1. exfalso. apply Hb. left. symmetry. exact E1. }
    cbn [negb List.filter].
    destruct (HYPHEN =? c)%N eqn:E2.
    { apply N.eqb_eq in E2. exfalso. apply Hh. left. symmetry. exact E2. }
    reflexivity.
  - intros H. apply Hb. right. exact H.
  - intros H. apply Hh. right. exact H.
Qed.

Lemma digit_is_plain (c : N) :
  is_ascii_digit c = true ->
  c <> BAI /\ c <> HYPHEN /\ c <> PLUS /\ c <> DOT /\ is_space c = false.
Proof.
  unfold is_ascii_digit, is_space, BAI, HYPHEN, PLUS, DOT.
  intros H. apply andb_prop in H as [H1 H2].
  apply N.leb_le in H1. apply N.leb_le in H2.
  repeat split; try lia.
  apply orb_false_intro.
  - apply N.eqb_neq. lia.
  - apply andb_false_intro2. apply N.leb_gt. lia.
Qed.

Lemma all_digits_cons (c : N) (ds : list N) :
  all_digits (c :: ds) = true ->
  is_ascii_digit c = true /\ all_digits ds = true.
Proof. unfold all_digits. cbn [forallb]. apply andb_prop. Qed.

Lemma all_digits_plain (ds : list N) :
  all_digits ds = true -> ~ In BAI ds /\ ~ In HYPHEN ds.
Proof.
  induction ds as [|c ds IH]; intros H; [split; intros []|].
  apply all_digits_cons in H as [Hc Hds].
  destruct (digit_is_plain c Hc) as (Hb & Hh & _).
  destruct (IH Hds) as [IHb IHh].
  split; intros [E | E]; auto.
Qed.

Lemma span_digits_all (ds : list N) :
  all_digits ds = true -> span_digits ds = (ds, []).
Proof.
  induction ds as [|c ds IH]; intros H; [reflexivity|].
  apply all_digits_cons in H as [Hc Hds].
  cbn [span_digits]. rewrite Hc, (IH Hds). reflexivity.
Qed.

Lemma span_digits_stop (ds : list N) (x : N) (r : text) :
  all_digits ds = true -> is_ascii_digit x = false ->
  span_digits (ds ++ x :: r) = (ds, x :: r).
Proof.
  intros H Hx. induction ds as [|c ds IH].
  - cbn [app span_digits]. rewrite Hx. reflexivity.
  - apply all_digits_cons in H as [Hc Hds].
    cbn [app span_digits]. rewrite Hc, (IH Hds). reflexivity.
Qed.

Lemma decimal_text_head (ip fp : list N) :
  all_digits ip = true ->
  skip_ws (decimal_text ip fp) = decimal_text ip fp /\
  take_sign (decimal_text ip fp) = (false, decimal_text ip fp).
Proof.
  intros H. unfold decimal_text. destruct ip as [|c ip].
  - split; reflexivity.
  - apply all_digits_cons in H as [Hc _].
    destruct (digit_is_plain c Hc) as (_ & Hh & Hp & _ & Hs).
    cbn [app skip_ws take_sign]. rewrite Hs.
    apply N.eqb_neq in Hh, Hp. rewrite Hh, Hp. split; reflexivity.
Qed.

(** [CAST] reads a decimal numeral as the number it denotes. *)
Lemma cast_real_decimal (ip fp : list N) :
  all_digits ip = true -> all_digits fp = true ->
  cast_real (decimal_text ip fp) = decimal_value ip fp.
Proof.
  intros Hi Hf. unfold cast_real.
  destruct (decimal_text_head ip fp Hi) as [-> ->].
  unfold decimal_text.
  rewrite (span_digits_stop ip DOT fp Hi eq_refl).
  cbn [span_fraction]. rewrite N.eqb_refl, (span_digits_all fp Hf).
  unfold decimal_value.
  destruct (ip ++ fp) as [|d ds] eqn:E.
  - apply app_eq_nil in E as [_ ->]. reflexivity.
  - apply Qred_complete. cbn [exponent].
    rewrite Qpower_opp. change (10 ^ 0)%Q with 1%Q.
    unfold Qdiv. ring.
Qed.

Lemma per_expr_decimal (ip fp : list N) :
  all_digits ip = true -> all_digits fp = true ->
  per_expr (Some (decimal_text ip fp ++ [BAI])) = Some (decimal_value ip fp).
Proof.
  intros Hi Hf. rewrite per_expr_stripped, per_stripped_app.
  rewrite per_stripped_unit, app_nil_r. f_equal.
  rewrite <- (cast_real_decimal ip fp Hi Hf). f_equal.
  destruct (all_digits_plain ip Hi) as [Hib Hih].
  destruct (all_digits_plain fp Hf) as [Hfb Hfh].
  apply per_stripped_plain; unfold decimal_text; intros Hin;
    apply in_app_or in Hin as [Hin | [Hin | Hin]];
    solve [auto | discriminate Hin].
Qed.

Lemma per_expr_sentinel (s : text) :
  s = per_minus_sign \/ s = per_hyphen -> per_expr (Some s) = Some 0%Q.
Proof. intros [-> | ->]; vm_compute; reflexivity. Qed.

Lemma per_filter_admits_by_value f (a b : option text) :
  per_expr a = per_expr b -> per_filter_admits f a = per_filter_admits f b.
Proof. intros E. unfold per_filter_admits. rewrite E. reflexivity. Qed.

Lemma Qle_bool_false_of_lt (a b : Q) : (a < b)%Q -> Qle_bool b a = false.
Proof.
  intros Hlt. destruct (Qle_bool b a) eqn:E; [|reflexivity].
  apply Qle_bool_iff in E. exfalso. apply (Qlt_not_le _ _ Hlt E).
Qed.

Lemma Qle_bool_refl (a : Q) : Qle_bool a a = true.
Proof. apply Qle_bool_iff, Qle_refl. Qed.

(** The PER clauses on a row whose text reads as [v], for each shape of
    finite bounds. *)
Lemma per_filter_admits_finite f (s : text) (v : Q) :
  per_expr (Some s) = Some v ->
  (forall lo hi, min_per f = Some (Fin lo) -> max_per f = Some (Fin hi) ->
     per_filter_admits f (Some s) = Qle_bool lo v && Qle_bool v hi) /\
  (forall lo, min_per f = Some (Fin lo) -> max_per f = None ->
     per_filter_admits f (Some s) = Qle_bool lo v) /\
  (forall hi, min_per f = None -> max_per f = Some (Fin hi) ->
     per_filter_admits f (Some s) = Qle_bool v hi).
Proof.
  intros Hv. unfold per_filter_admits. rewrite Hv.
  split; [|split].
  - intros lo hi -> ->. cbn [bind_float sql_ge sql_le keeps].
    destruct (Qle_bool lo v), (Qle_bool v hi); reflexivity.
  - intros lo -> ->. cbn [bind_float sql_ge keeps].
    destruct (Qle_bool lo v); reflexivity.
  - intros hi -> ->. cbn [bind_float sql_le keeps].
    destruct (Qle_bool v hi); reflexivity.
Qed.

End PerFacts.

(** C1 (as the code has it).  With a PER bound supplied, a stored PER text
    is compared by the number [CAST] reads from it once every ['倍'] and
    every ['-'] is taken out, wherever they stand: a decimal numeral with
    the unit suffix is compared by the number it denotes (["15.5倍"] as
    15.5, admitted by min = 10, max = 20), and a leading ['-'] is lost
    with the rest (["-8.2倍"] is compared as 8.2).  A sentinel text (the
    minus sign or the hyphen) reads as 0 and is compared as the number 0,
    exactly like a stored ["0"]: a positive lower bound or a negative
    upper bound excludes it, and bounds that admit 0 admit it.  A NULL PER
    is excluded whatever the bounds, and it is the only one: every text
    is admitted by the range that starts and ends at its value. *)
Theorem per_range_on_decorated_and_sentinel
    (f : Screening.Filters) (sentinel : text) :
  sentinel = Screening.per_minus_sign \/ sentinel = Screening.per_hyphen ->
  (forall s : text,
     let v := cast_real (Screening.per_stripped s) in
     Screening.per_expr (Some s) = Some v /\
     (forall lo hi,
        Screening.min_per f = Some (Fin lo) ->
        Screening.max_per f = Some (Fin hi) ->
        Screening.per_filter_admits f (Some s)
        = Qle_bool lo v && Qle_bool v hi) /\
     (forall lo,
        Screening.min_per f = Some (Fin lo) -> Screening.max_per f = None ->
        Screening.per_filter_admits f (Some s) = Qle_bool lo v) /\
     (forall hi,
        Screening.min_per f = None -> Screening.max_per f = Some (Fin hi) ->
        Screening.per_filter_admits f (Some s) = Qle_bool v hi) /\
     Screening.per_filter_admits
       (Screening.with_per (Some (Fin v)) (Some (Fin v))) (Some s) = true) /\
  (forall ip fp : list N,
     Screening.all_digits ip = true -> Screening.all_digits fp = true ->
     Screening.per_expr (Some (Screening.decimal_text ip fp ++ [BAI]))
     = Some (Screening.decimal_value ip fp)) /\
  Screening.per_expr (Some Screening.per_decorated) = Some (31 # 2)%Q /\
  (Screening.min_per f = Some (Fin 10) ->
   Screening.max_per f = Some (Fin 20) ->
   Screening.per_filter_admits f (Some Screening.per_decorated) = true) /\
  (forall (pre post : text) (c : N),
     c = HYPHEN \/ c = BAI ->
     Screening.per_filter_admits f (Some (pre ++ c :: post))
     = Screening.per_filter_admits f (Some (pre ++ post))) /\
  Screening.per_expr (Some (lit "-8.2" ++ [BAI])) = Some (41 # 5)%Q /\
  Screening.per_expr (Some sentinel) = Some 0%Q /\
  Screening.per_filter_admits f (Some sentinel)
  = Screening.per_filter_admits f (Some (lit "0")) /\
  (forall lo, Screening.min_per f = Some (Fin lo) -> (0 < lo)%Q ->
     Screening.per_filter_admits f (Some sentinel) = false) /\
  (forall hi, Screening.max_per f = Some (Fin hi) -> (hi < 0)%Q ->
     Screening.per_filter_admits f (Some sentinel) = false) /\
  ((Screening.min_per f = None
    \/ exists lo, Screening.min_per f = Some (Fin lo) /\ (lo <= 0)%Q) ->
   (Screening.max_per f = None
    \/ exists hi, Screening.max_per f = Some (Fin hi) /\ (0 <= hi)%Q) ->
   Screening.per_filter_admits f (Some sentinel) = true) /\
  (Screening.given (Screening.min_per f)
   || Screening.given (Screening.max_per f) = true ->
   Screening.per_filter_admits f None = false).
Proof.
  intros Hs.
  pose proof (per_expr_sentinel sentinel Hs) as Hz.
  destruct (per_filter_admits_finite f sentinel 0%Q Hz) as (Hb & Hlo & Hhi).
  split; [|split; [|split; [|split; [|split; [|split; [|split;
    [|split; [|split; [|split; [|split]]]]]]]]]].
  - intros s v.
    pose proof (per_expr_stripped s) as Hv. fold v in Hv.
    destruct (per_filter_admits_finite f s v Hv) as (H1 & H2 & H3).
    split; [exact Hv|]. split; [exact H1|]. split; [exact H2|].
    split; [exact H3|].
    destruct (per_filter_admits_finite
                (Screening.with_per (Some (Fin v)) (Some (Fin v))) s v Hv)
      as (H4 & _).
    rewrite (H4 v v eq_refl eq_refl), Qle_bool_refl. reflexivity.
  - exact per_expr_decimal.
  - vm_compute. reflexivity.
  - intros Hmin Hmax. unfold Screening.per_filter_admits.
    rewrite Hmin, Hmax. vm_compute. reflexivity.
  - intros pre post c Hc. apply per_filter_admits_by_value.
    rewrite !per_expr_stripped, (per_stripped_drops pre post c Hc).
    reflexivity.
  - vm_compute. reflexivity.
  - exact Hz.
  - apply per_filter_admits_by_value. rewrite Hz. reflexivity.
  - intros lo Hmin Hpos. unfold Screening.per_filter_admits.
    rewrite Hmin, Hz. cbn [bind_float sql_ge keeps].
    rewrite (Qle_bool_false_of_lt 0 lo Hpos). reflexivity.
  - intros hi Hmax Hneg. unfold Screening.per_filter_admits.
    rewrite Hmax, Hz. cbn [bind_float sql_le keeps].
    rewrite (Qle_bool_false_of_lt hi 0 Hneg). apply andb_false_r.
  - intros [Hmin | (lo & Hmin & Hle)] [Hmax | (hi & Hmax & Hge)].
    + unfold Screening.per_filter_admits. rewrite Hmin, Hmax. reflexivity.
    + rewrite (Hhi hi Hmin Hmax). apply Qle_bool_iff. exact Hge.
    + rewrite (Hlo lo Hmin Hmax). apply Qle_bool_iff. exact Hle.
    + rewrite (Hb lo hi Hmin Hmax). apply andb_true_intro.
      split; apply Qle_bool_iff; assumption.
  - intros Hg. unfold Screening.per_filter_admits.
    destruct (Screening.min_per f); [reflexivity|].
    destruct (Screening.max_per f); [reflexivity|]. discriminate.
Qed.

Lemma per_range_on_decorated_and_sentinel_witness :
  let f := Screening.with_per (Some (Fin 10)) (Some (Fin 20)) in
  let sentinel := Screening.per_minus_sign in
  (forall s : text,
     let v := cast_real (Screening.per_stripped s) in
     Screening.per_expr (Some s) = Some v /\
     (forall lo hi,
        Screening.min_per f = Some (Fin lo) ->
        Screening.max_per f = Some (Fin hi) ->
        Screening.per_filter_admits f (Some s)
        = Qle_bool lo v && Qle_bool v hi) /\
     (forall lo,
        Screening.min_per f = Some (Fin lo) -> Screening.max_per f = None ->
        Screening.per_filter_admits f (Some s) = Qle_bool lo v) /\
     (forall hi,
        Screening.min_per f = None -> Screening.max_per f = Some (Fin hi) ->
        Screening.per_filter_admits f (Some s) = Qle_bool v hi) /\
     Screening.per_filter_admits
       (Screening.with_per (Some (Fin v)) (Some (Fin v))) (Some s) = true) /\
  (forall ip fp : list N,
     Screening.all_digits ip = true -> Screening.all_digits fp = true ->
     Screening.per_expr (Some (Screening.decimal_text ip fp ++ [BAI]))
     = Some (Screening.decimal_value ip fp)) /\
  Screening.per_expr (Some Screening.per_decorated) = Some (31 # 2)%Q /\
  (Screening.min_per f = Some (Fin 10) ->
   Screening.max_per f = Some (Fin 20) ->
   Screening.per_filter_admits f (Some Screening.per_decorated) = true) /\
  (forall (pre post : text) (c : N),
     c = HYPHEN \/ c = BAI ->
     Screening.per_filter_admits f (Some (pre ++ c :: post))
     = Screening.per_filter_admits f (Some (pre ++ post))) /\
  Screening.per_expr (Some (lit "-8.2" ++ [BAI])) = Some (41 # 5)%Q /\
  Screening.per_expr (Some sentinel) = Some 0%Q /\
  Screening.per_filter_admits f (Some sentinel)
  = Screening.per_filter_admits f (Some (lit "0")) /\
  (forall lo, Screening.min_per f = Some (Fin lo) -> (0 < lo)%Q ->
     Screening.per_filter_admits f (Some sentinel) = false) /\
  (forall hi, Screening.max_per f = Some (Fin hi) -> (hi < 0)%Q ->
     Screening.per_filter_admits f (Some sentinel) = false) /\
  ((Screening.min_per f = None
    \/ exists lo, Screening.min_per f = Some (Fin lo) /\ (lo <= 0)%Q) ->
   (Screening.max_per f = None
    \/ exists hi, Screening.max_per f = Some (Fin hi) /\ (0 <= hi)%Q) ->
   Screening.per_filter_admits f (Some sentinel) = true) /\
  (Screening.given (Screening.min_per f)
   || Screening.given (Screening.max_per f) = true ->
   Screening.per_filter_admits f None = false).
Proof.
  intros f sentinel.
  apply (per_range_on_decorated_and_sentinel f sentinel).
  left. reflexivity.
Defined.

(** C1, the claim as stated, at the request [max_per=20]: the builder
    emits the upper-bound clause with 20 bound to it, and the row whose
    stored PER is the sentinel is admitted, for the minus sign as for the
    hyphen. *)
Lemma sentinel_per_admitted_under_upper_bound :
  let f := @Screening.collect_filters AsciiRuntime.ascii_builtins
             (<["max_per" := lit "20"]> ∅) in
  @Screening.build_conditions AsciiRuntime.ascii_builtins f
  = ret ([Screening.c_max_per], [Screening.PFloat (Fin 20)]) /\
  Screening.per_filter_admits f (Some Screening.per_minus_sign) = true /\
  Screening.per_filter_admits f (Some Screening.per_hyphen) = true.
Proof.
  repeat split; vm_compute; reflexivity.
Qed.

(** ** Result Formatter *)

Section FormatterFacts.
Import Formatter.
Context `{Builtins}.

(** Removing a one-character pattern keeps every other character. *)
Lemma replace_char_keeps (s : text) (d c : N) :
  In c s -> c <> d -> In c (Text.replace s [d] []).
Proof.
  unfold Text.replace. induction s as [|x s IH]; intros Hin Hne; [destruct Hin|].
  cbn [replace_go is_prefix].
  destruct (N.eqb_spec d x) as [->|Hdx]; cbn [andb].
  - destruct s; cbn [app length Nat.pred].
    + destruct Hin as [->|[]]. congruence.
    + destruct Hin as [->|Hin]; [congruence|]. apply IH; assumption.
  - destruct Hin as [->|Hin]; [left; reflexivity|].
    right. apply IH; assumption.
Qed.

Lemma str_isdigit_false (s : text) (c : N) :
  In c s -> uni_isdigit c = false -> str_isdigit s = false.
Proof.
  intros Hin Hc. unfold str_isdigit. destruct s as [|x r]; [reflexivity|].
  apply not_true_iff_false. intros Hall.
  rewrite forallb_forall in Hall. specialize (Hall c Hin). congruence.
Qed.

Lemma looks_numeric_false (s : text) (c : N) :
  In c s -> uni_isdigit c = false -> c <> DOT -> c <> HYPHEN ->
  looks_numeric (SText s) = false.
Proof.
  intros Hin Hc Hd Hh. unfold looks_numeric. cbn [str_of].
  apply (str_isdigit_false _ c); [|exact Hc].
  apply replace_char_keeps; [|exact Hh].
  apply replace_char_keeps; assumption.
Qed.

(** Every entry of the dictionary literal that [format_fields] returns is
    the coercion of its column. *)
Lemma format_fields_get (fs : list (string * nat * coercion))
      (row : list sqlval) (r : record) (k : string) (i : nat) (c : coercion) :
  format_fields fs row = ret r ->
  fields_get k fs = Some (i, c) ->
  exists v j, row !! i = Some v /\ coerce c v = ret j /\
              record_get k r = Some j.
Proof.
  revert r. induction fs as [|[[k' i'] c'] rest IH]; intros r Hf Hk.
  - discriminate.
  - cbn [format_fields] in Hf. unfold row_at in Hf.
    destruct (row !! i') as [v'|] eqn:Ev; [|discriminate].
    cbn [of_option bind ret] in Hf.
    destruct (coerce c' v') as [e|j'] eqn:Ec; [discriminate|].
    cbn [bind] in Hf.
    destruct (format_fields rest row) as [e|r'] eqn:Er; [discriminate|].
    cbn [bind ret] in Hf. injection Hf as <-.
    cbn [fields_get] in Hk. cbn [record_get].
    destruct (String.eqb k k') eqn:Ek.
    + injection Hk as -> ->. eauto.
    + apply (IH r' eq_refl Hk).
Qed.

End FormatterFacts.

(** C4 (as the code has it).  A result row whose columns after code, name
    and date are all NULL is formatted without error; every numeric entry
    written with [else None] is null, the three entries written with
    [else 0] ([change_amount], [change_percent], [volume]) are the number
    0, and the two golden-cross flags are 0, not null. *)
Theorem null_row_formatting `{Builtins} (code name date : sqlval) :
  exists r,
    Formatter.format_row (Formatter.null_row code name date) = ret r /\
    Forall (fun k => Formatter.record_get k r = Some Formatter.JNull)
           Formatter.null_default_fields /\
    Formatter.record_get "change_amount" r = Some (Formatter.JInt 0) /\
    Formatter.record_get "change_percent" r = Some (Formatter.JInt 0) /\
    Formatter.record_get "volume" r = Some (Formatter.JInt 0) /\
    Forall (fun k => Formatter.record_get k r = Some (Formatter.JInt 0))
           Formatter.flag_fields.
Proof.
  eexists. split; [reflexivity|].
  split; [|split; [|split; [|split]]]; try reflexivity.
  - repeat constructor.
  - repeat constructor.
Qed.

(** C4, the claim as stated, at a row of the Toyota code whose optional
    columns are all NULL: three optional numeric fields come out as the
    number 0 where the claim wants null. *)
Lemma null_row_has_zero_placeholders :
  exists r,
    @Formatter.format_row AsciiRuntime.ascii_builtins
      (Formatter.null_row (SText (lit "7203")) (SText (lit "Toyota"))
                          (SText (lit "2024-01-05"))) = ret r /\
    Formatter.record_get "change_amount" r = Some (Formatter.JInt 0) /\
    Formatter.record_get "change_percent" r = Some (Formatter.JInt 0) /\
    Formatter.record_get "volume" r = Some (Formatter.JInt 0) /\
    Formatter.record_get "volume" r <> Some Formatter.JNull.
Proof.
  eexists. split; [vm_compute; reflexivity|].
  repeat split; try reflexivity. discriminate.
Qed.

(** C10. A stored PER or PBR text with a character that is neither a
    digit nor ['.'] nor ['-'] is formatted as null, in the field and in
    every record the formatter returns for a row carrying it; with ['倍']
    not a digit, the text ["15.5倍"] that the PER range 10..20 admits is
    formatted as null. *)
Theorem decorated_ratio_formats_null `{Builtins} (s : text) (c : N) :
  In c s -> uni_isdigit c = false -> c <> DOT -> c <> HYPHEN ->
  Formatter.coerce Formatter.Ratio (SText s) = ret Formatter.JNull /\
  (forall row r, row !! 9%nat = Some (SText s) ->
     Formatter.format_row row = ret r ->
     Formatter.record_get "per" r = Some Formatter.JNull) /\
  (forall row r, row !! 10%nat = Some (SText s) ->
     Formatter.format_row row = ret r ->
     Formatter.record_get "pbr" r = Some Formatter.JNull) /\
  (c = BAI -> s = Screening.per_decorated ->
     Screening.per_filter_admits
       (Screening.with_per (Some (Fin 10)) (Some (Fin 20))) (Some s) = true).
Proof.
  intros Hin Hc Hd Hh.
  assert (Hnull : Formatter.coerce Formatter.Ratio (SText s)
                  = ret Formatter.JNull).
  { unfold Formatter.coerce.
    rewrite (looks_numeric_false s c Hin Hc Hd Hh), andb_false_r.
    reflexivity. }
  split; [exact Hnull|]. split; [|split].
  - intros row r Hrow Hf.
    destruct (format_fields_get _ row r "per" 9%nat Formatter.Ratio Hf eq_refl)
      as (v & j & Hv & Hj & Hr).
    rewrite Hrow in Hv. injection Hv as <-.
    rewrite Hnull in Hj. injection Hj as <-. exact Hr.
  - intros row r Hrow Hf.
    destruct (format_fields_get _ row r "pbr" 10%nat Formatter.Ratio Hf eq_refl)
      as (v & j & Hv & Hj & Hr).
    rewrite Hrow in Hv. injection Hv as <-.
    rewrite Hnull in Hj. injection Hj as <-. exact Hr.
  - intros _ ->. vm_compute. reflexivity.
Qed.

Lemma decorated_ratio_formats_null_witness :
  Formatter.coerce Formatter.Ratio (SText Screening.per_decorated)
  = ret Formatter.JNull /\
  (forall row r, row !! 9%nat = Some (SText Screening.per_decorated) ->
     Formatter.format_row row = ret r ->
     Formatter.record_get "per" r = Some Formatter.JNull) /\
  (forall row r, row !! 10%nat = Some (SText Screening.per_decorated) ->
     Formatter.format_row row = ret r ->
     Formatter.record_get "pbr" r = Some Formatter.JNull) /\
  (BAI = BAI -> Screening.per_decorated = Screening.per_decorated ->
     Screening.per_filter_admits
       (Screening.with_per (Some (Fin 10)) (Some (Fin 20)))
       (Some Screening.per_decorated) = true).
Proof.
  apply (@decorated_ratio_formats_null AsciiRuntime.ascii_builtins
           Screening.per_decorated BAI).
  - vm_compute. tauto.
  - reflexivity.
  - discriminate.
  - discriminate.
Defined.

(** A row that carries ["15.5倍"] is formatted, and its [per] is null. *)
Example decorated_row_is_formatted :
  exists r,
    @Formatter.format_row AsciiRuntime.ascii_builtins
      (Formatter.row_with_per (SText (lit "7203")) (SText (lit "Toyota"))
         (SText (lit "2024-01-05")) (SText Screening.per_decorated)) = ret r /\
    Formatter.record_get "per" r = Some Formatter.JNull.
Proof. eexists. split; vm_compute; reflexivity. Qed.

(** ** Filter Collector: malformed values *)

Section CollectorFacts.
Import Screening Endpoint.
Context `{Builtins}.

Lemma lookup_insert_as_delete (args : gmap string text) k s key :
  key <> k -> <[k := s]> args !! key = delete k args !! key.
Proof.
  intros Hne. rewrite lookup_insert_ne, lookup_delete_ne by congruence.
  reflexivity.
Qed.

(** One field of the record: it reads another key, or it reads the
    malformed key and the conversion fails. *)
Ltac settle_field Hs :=
  unfold args_get_int, args_get_float, args_flag, args_get;
  first [ rewrite lookup_insert_as_delete by discriminate; reflexivity
        | rewrite lookup_insert_eq, lookup_delete_eq, Hs; reflexivity ].

(** A key read with [type=int] whose text [int] rejects is read as if it
    had not been sent. *)
Lemma malformed_int_key_is_absent (args : gmap string text) k s :
  In k int_keys -> py_int s = None ->
  collect_filters (<[k := s]> args) = collect_filters (delete k args).
Proof.
  intros Hk Hs. unfold int_keys in Hk. cbn [In] in Hk.
  repeat (destruct Hk as [<- | Hk];
          [ unfold collect_filters; f_equal; settle_field Hs | ]).
  destruct Hk.
Qed.

(** The same for a key read with [type=float]. *)
Lemma malformed_float_key_is_absent (args : gmap string text) k s :
  In k float_keys -> py_float s = None ->
  collect_filters (<[k := s]> args) = collect_filters (delete k args).
Proof.
  intros Hk Hs. unfold float_keys in Hk. cbn [In] in Hk.
  repeat (destruct Hk as [<- | Hk];
          [ unfold collect_filters; f_equal; settle_field Hs | ]).
  destruct Hk.
Qed.

Lemma enhanced_screening_by_filters repo (a b : gmap string text) :
  collect_filters a = collect_filters b ->
  enhanced_screening repo a = enhanced_screening repo b.
Proof. intros E. unfold enhanced_screening. rewrite E. reflexivity. Qed.

(** So the whole request answers as if the key had not been sent. *)
Lemma malformed_typed_key_fails_open repo (args : gmap string text) k s :
  (In k int_keys /\ py_int s = None) \/
  (In k float_keys /\ py_float s = None) ->
  enhanced_screening repo (<[k := s]> args)
  = enhanced_screening repo (delete k args).
Proof.
  intros [[Hk Hs] | [Hk Hs]]; apply enhanced_screening_by_filters.
  - apply malformed_int_key_is_absent; assumption.
  - apply malformed_float_key_is_absent; assumption.
Qed.

(** [is_credit_issue] is read as raw text and converted while the query
    is built: a text [int] rejects fails the request. *)
Lemma malformed_credit_key_errors execute_query (args : gmap string text) s :
  args !! "is_credit_issue"%string = Some s -> py_int s = None ->
  enhanced_screening (Some execute_query) args = Error500 ValueError.
Proof.
  intros Ha Hs. unfold enhanced_screening, build_query.
  rewrite (build_conditions_raises (collect_filters args) s); [reflexivity| |exact Hs].
  exact Ha.
Qed.

End CollectorFacts.

(** C3, on the request [is_credit_issue=abc]: the endpoint answers with
    the HTTP 500 error body, whereas the same request without the key, and
    the request with a malformed [min_volume], succeed. *)
Theorem malformed_is_credit_issue_fails_request :
  @Endpoint.enhanced_screening AsciiRuntime.ascii_builtins
    (Some Endpoint.empty_store) (<["is_credit_issue" := lit "abc"]> ∅)
  = Endpoint.Error500 ValueError /\
  @Endpoint.enhanced_screening AsciiRuntime.ascii_builtins
    (Some Endpoint.empty_store) ∅
  = Endpoint.Ok200 [] /\
  @Endpoint.enhanced_screening AsciiRuntime.ascii_builtins
    (Some Endpoint.empty_store) (<["min_volume" := lit "abc"]> ∅)
  = Endpoint.Ok200 [].
Proof.
  split; [|split].
  - apply (@malformed_credit_key_errors AsciiRuntime.ascii_builtins
             Endpoint.empty_store _ (lit "abc")).
    + apply lookup_insert_eq.
    + vm_compute. reflexivity.
  - vm_compute. reflexivity.
  - rewrite (@malformed_typed_key_fails_open AsciiRuntime.ascii_builtins).
    + vm_compute. reflexivity.
    + left. split; [cbn; tauto | vm_compute; reflexivity].
Qed.

(** ** AI Narrative Adapter *)

Section NarrativeFacts.
Import Narrative.
Context {NM : Numerics}.

Lemma quiet_ret {A} (a : A) : quiet (ret a).
Proof. discriminate. Qed.

Lemma quiet_bind {A B} (m : M A) (k : A -> M B) :
  quiet m -> (forall a, quiet (k a)) -> quiet (bind m k).
Proof.
  intros Hm Hk. destruct m as [e | a]; cbn [bind].
  - intros E. apply Hm. unfold raise in *. congruence.
  - apply Hk.
Qed.

Lemma quiet_builtin {A} (r : builtin_error + A) : quiet (builtin r).
Proof. destruct r as [[| |] | a]; discriminate. Qed.

Lemma quiet_get_key k x : quiet (get_key k x).
Proof.
  destruct x as [| | | | | |items]; try discriminate.
  cbn [get_key]. destruct (items_get k items); discriminate.
Qed.

Lemma quiet_get_first x : quiet (get_first x).
Proof. destruct x as [| | | |[|]|[|]|]; discriminate. Qed.

Lemma quiet_py_len x : quiet (py_len x).
Proof. destruct x; discriminate. Qed.

Lemma quiet_py_in k x : quiet (py_in k x).
Proof. destruct x; discriminate. Qed.

Lemma quiet_py_get k d s : quiet (py_get k d s).
Proof. destruct s; discriminate. Qed.

Lemma quiet_py_gt v n : quiet (py_gt v n).
Proof. unfold py_gt. destruct (as_num v) as [[|]|]; discriminate. Qed.

Lemma quiet_has_choices result : quiet (has_choices result).
Proof.
  unfold has_choices. apply quiet_bind; [apply quiet_py_in|].
  intros [|]; [|apply quiet_ret].
  apply quiet_bind; [apply quiet_get_key|]. intros choices.
  apply quiet_bind; [apply quiet_py_len|]. intros n. apply quiet_ret.
Qed.

Lemma quiet_content_of result : quiet (content_of result).
Proof.
  unfold content_of. apply quiet_bind; [apply quiet_get_key|]. intros c.
  apply quiet_bind; [apply quiet_get_first|]. intros f.
  apply quiet_bind; [apply quiet_get_key|]. intros m.
  apply quiet_get_key.
Qed.

Lemma quiet_change_values rs : quiet (change_values rs).
Proof.
  induction rs as [|s rs IH]; [apply quiet_ret|].
  cbn [change_values]. apply quiet_bind; [apply quiet_py_get|]. intros c.
  destruct (is_none c); [exact IH|].
  apply quiet_bind; [apply quiet_py_get|]. intros v.
  apply quiet_bind; [exact IH|]. intros vs. apply quiet_ret.
Qed.

Lemma quiet_avg_change vs : quiet (avg_change vs).
Proof.
  destruct vs as [|v vs]; [apply quiet_ret|].
  unfold avg_change. apply quiet_bind; [apply quiet_builtin|].
  intros t. apply quiet_builtin.
Qed.

Lemma quiet_positive_count rs : quiet (positive_count rs).
Proof.
  induction rs as [|s rs IH]; [apply quiet_ret|].
  cbn [positive_count]. apply quiet_bind; [apply quiet_py_get|]. intros v.
  apply quiet_bind; [apply quiet_py_gt|]. intros b.
  apply quiet_bind; [exact IH|]. intros n. apply quiet_ret.
Qed.

Lemma quiet_keyed rs : quiet (keyed rs).
Proof.
  induction rs as [|s rs IH]; [apply quiet_ret|].
  cbn [keyed]. apply quiet_bind; [apply quiet_py_get|]. intros k.
  apply quiet_bind; [exact IH|]. intros ks. apply quiet_ret.
Qed.

Lemma quiet_high_volume rs : quiet (high_volume rs).
Proof.
  induction rs as [|s rs IH]; [apply quiet_ret|].
  cbn [high_volume]. apply quiet_bind; [apply quiet_py_get|]. intros v.
  apply quiet_bind; [apply quiet_py_gt|]. intros b.
  apply quiet_bind; [exact IH|]. intros hs. apply quiet_ret.
Qed.

Ltac quiet_steps :=
  repeat first
    [ apply quiet_ret
    | apply quiet_builtin
    | apply quiet_py_get
    | apply quiet_bind; [|intros ?] ].

Lemma quiet_gainer_line stock : quiet (gainer_line stock).
Proof. unfold gainer_line. quiet_steps. Qed.

Lemma quiet_volume_line stock : quiet (volume_line stock).
Proof. unfold volume_line. quiet_steps. Qed.

Lemma quiet_lines line stocks :
  (forall s, quiet (line s)) -> quiet (lines line stocks).
Proof.
  intros Hl. induction stocks as [|s stocks IH]; [apply quiet_ret|].
  cbn [lines]. apply quiet_bind; [apply Hl|]. intros l.
  apply quiet_bind; [exact IH|]. intros ls. apply quiet_ret.
Qed.

Lemma quiet_demo_statistics rs : quiet (demo_statistics rs).
Proof.
  destruct rs as [|s rs]; [apply quiet_ret|].
  unfold demo_statistics.
  apply quiet_bind; [apply quiet_change_values|]. intros values.
  apply quiet_bind; [apply quiet_avg_change|]. intros avg.
  apply quiet_bind; [apply quiet_positive_count|]. intros count.
  do 5 (apply quiet_bind; [apply quiet_builtin|]; intros ?).
  apply quiet_bind; [apply quiet_keyed|]. intros keys.
  apply quiet_bind; [apply quiet_builtin|]. intros sorted.
  apply quiet_bind.
  { destruct (take 3 sorted); [apply quiet_ret|].
    apply quiet_bind; [apply quiet_lines, quiet_gainer_line|].
    intros ls. apply quiet_ret. }
  intros gainers.
  apply quiet_bind; [apply quiet_high_volume|]. intros high.
  apply quiet_bind; [|intros volumes; apply quiet_ret].
  destruct high; [apply quiet_ret|].
  apply quiet_bind; [apply quiet_builtin|]. intros n.
  apply quiet_bind; [apply quiet_lines, quiet_volume_line|].
  intros ls. apply quiet_ret.
Qed.

Lemma quiet_demo query rs : quiet (_get_demo_screening_analysis query rs).
Proof.
  unfold _get_demo_screening_analysis.
  apply quiet_bind; [apply quiet_builtin|]. intros n.
  apply quiet_bind; [apply quiet_demo_statistics|]. intros st.
  apply quiet_ret.
Qed.

Lemma quiet_fallback query rs : quiet (fallback query rs).
Proof.
  unfold fallback. apply quiet_bind; [apply quiet_demo|].
  intros s. apply quiet_ret.
Qed.

(** The two handlers on an exception that is not a timeout. *)
Lemma handler_falls_back (e : exn) (m : M json) :
  e <> RequestsTimeout ->
  match e with
  | RequestsTimeout => ret (JsStr timeout_message)
  | _ => m
  end = m.
Proof. destruct e; congruence. Qed.

(** The handlers around an outcome of the fallback inside [try]. *)
Lemma handler_keeps_fallback query rs :
  match fallback query rs with
  | inr analysis => ret analysis
  | inl RequestsTimeout => ret (JsStr timeout_message)
  | inl _ => fallback query rs
  end = fallback query rs.
Proof.
  pose proof (quiet_fallback query rs) as Hq.
  destruct (fallback query rs) as [e | a] eqn:E; [|reflexivity].
  apply handler_falls_back. intros ->. apply Hq. reflexivity.
Qed.

(** A text the fallback returns opens with its title. *)
Lemma fallback_text query rs (a : json) :
  fallback query rs = ret a ->
  exists t, a = JsStr (demo_title ++ t).
Proof.
  unfold fallback, _get_demo_screening_analysis. intros E.
  destruct (builtin (py_fstr (int_of_len rs))) as [e | n];
    cbn [bind] in E; [discriminate|].
  destruct (demo_statistics rs) as [e | st]; cbn [bind] in E;
    [discriminate|].
  unfold ret in E. injection E as <-. eexists. reflexivity.
Qed.

Lemma title_is_not_timeout (t : text) : demo_title ++ t <> timeout_message.
Proof.
  intros E.
  assert (H : head (demo_title ++ t) = head timeout_message)
    by (rewrite E; reflexivity).
  vm_compute in H. discriminate.
Qed.

End NarrativeFacts.

(** C5 (as the code has it).  In a batch call that reaches the LLM (results
    not empty, credential configured) and in which the LLM fails, the
    request is handed to the rule-based fallback
    [_get_demo_screening_analysis(query, screening_results)], the very
    call made when no credential is configured, and resolves as that call
    does, when the LLM call raises anything but a timeout, answers with a
    status other than 200, or sends a body that does not decode or in
    which [choices[0].message.content] cannot be reached.  On a timeout
    the request resolves to the fixed timeout message instead, and a
    [choices[0].message.content] that is reached but is not a string is
    returned as it is; neither is a text of the fallback, which opens
    with its own title. *)
Theorem analyze_screening_results_on_failure
    {NM : Narrative.Numerics} (api_key : option text) (query : text)
    (x : Narrative.json) (rs : list Narrative.json)
    (post : M Narrative.http_response) :
  Narrative.no_credential api_key = false ->
  Narrative.llm_failed post = true ->
  Narrative.analyze_screening_results api_key query (x :: rs) post
  = (if Narrative.timed_out post
     then ret (Narrative.JsStr Narrative.timeout_message)
     else match Narrative.content_reached post with
          | Some content => ret content
          | None => Narrative.fallback query (x :: rs)
          end) /\
  Narrative.analyze_screening_results None query (x :: rs) post
  = Narrative.fallback query (x :: rs) /\
  (forall content, Narrative.content_reached post = Some content ->
     forall t, content <> Narrative.JsStr t) /\
  (forall a, Narrative.fallback query (x :: rs) = ret a ->
     exists t, a = Narrative.JsStr (Narrative.demo_title ++ t) /\
               a <> Narrative.JsStr Narrative.timeout_message).
Proof.
  intros Hk Hf.
  split; [|split; [apply handler_keeps_fallback|split]].
  - unfold Narrative.analyze_screening_results, Narrative.analyze_body.
    rewrite Hk. destruct post as [e | response].
    + cbn [bind Narrative.timed_out Narrative.content_reached].
      destruct e; reflexivity.
    + cbn [bind Narrative.timed_out Narrative.content_reached].
      destruct (Narrative.status_code response =? 200);
        [|apply handler_keeps_fallback].
      destruct (Narrative.json_body response) as [result|];
        [|reflexivity].
      cbn [of_option bind ret].
      pose proof (quiet_has_choices result) as Hh.
      pose proof (quiet_content_of result) as Hc.
      destruct (Narrative.has_choices result) as [e | [|]]; cbn [bind].
      * apply handler_falls_back. intros ->. apply Hh. reflexivity.
      * destruct (Narrative.content_of result) as [e | c]; [|reflexivity].
        apply handler_falls_back. intros ->. apply Hc. reflexivity.
      * apply handler_keeps_fallback.
  - intros content Hc t ->. unfold Narrative.llm_failed in Hf.
    rewrite Hc in Hf. discriminate.
  - intros a Ha. destruct (fallback_text query (x :: rs) a Ha) as [t ->].
    exists t. split; [reflexivity|].
    intros E. apply (title_is_not_timeout t).
    exact (f_equal (fun a => match a with
                             | Narrative.JsStr s => s
                             | _ => []
                             end) E).
Qed.

Lemma analyze_screening_results_on_failure_witness :
  let NM := Narrative.Runtime.numerics in
  let api_key := Some (lit "sk-key") in
  let query := lit "outlook?" in
  let x := Narrative.stock "7203" "Toyota"
             (Narrative.JsFloat (Fin (3 # 2))) (Narrative.JsInt 180) in
  let rs : list Narrative.json := [] in
  let post : M Narrative.http_response :=
    ret {| Narrative.status_code := 503; Narrative.json_body := None |} in
  Narrative.analyze_screening_results api_key query (x :: rs) post
  = (if Narrative.timed_out post
     then ret (Narrative.JsStr Narrative.timeout_message)
     else match Narrative.content_reached post with
          | Some content => ret content
          | None => Narrative.fallback query (x :: rs)
          end) /\
  Narrative.analyze_screening_results None query (x :: rs) post
  = Narrative.fallback query (x :: rs) /\
  (forall content, Narrative.content_reached post = Some content ->
     forall t, content <> Narrative.JsStr t) /\
  (forall a, Narrative.fallback query (x :: rs) = ret a ->
     exists t, a = Narrative.JsStr (Narrative.demo_title ++ t) /\
               a <> Narrative.JsStr Narrative.timeout_message).
Proof.
  intros NM api_key query x rs post.
  apply (@analyze_screening_results_on_failure NM api_key query x rs post);
    reflexivity.
Defined.

(** C5, the claim as stated, fails at two failures of the LLM: at a call
    that times out the request resolves to the timeout message, and at a
    200 answer whose [choices[0].message.content] is null it resolves to
    null; the same request without a credential gets the fallback
    narrative, which is neither. *)
Lemma llm_failure_not_resolved_by_fallback :
  let NM := Narrative.Runtime.numerics in
  let key := Some (lit "sk-key") in
  let q := lit "outlook?" in
  let rs := [Narrative.stock "7203" "Toyota"
               (Narrative.JsFloat (Fin (3 # 2))) (Narrative.JsInt 180)] in
  let null_answer : M Narrative.http_response :=
    ret (Narrative.completion Narrative.JsNull) in
  Narrative.llm_failed (raise RequestsTimeout) = true /\
  Narrative.analyze_screening_results key q rs (raise RequestsTimeout)
  = ret (Narrative.JsStr Narrative.timeout_message) /\
  Narrative.llm_failed null_answer = true /\
  Narrative.analyze_screening_results key q rs null_answer
  = ret Narrative.JsNull /\
  exists t,
    Narrative.analyze_screening_results None q rs (raise RequestsTimeout)
    = ret (Narrative.JsStr t) /\
    Narrative.fallback q rs = ret (Narrative.JsStr t) /\
    t <> Narrative.timeout_message.
Proof.
  intros NM key q rs null_answer.
  split; [reflexivity|]. split; [reflexivity|].
  split; [reflexivity|]. split; [vm_compute; reflexivity|].
  destruct (Narrative.fallback q rs) as [e | a] eqn:E;
    [vm_compute in E; discriminate|].
  destruct (fallback_text q rs a E) as [t ->].
  exists (Narrative.demo_title ++ t).
  split; [|split; [reflexivity|apply title_is_not_timeout]].
  unfold Narrative.analyze_screening_results, Narrative.analyze_body.
  cbn [rs Narrative.no_credential]. rewrite E. reflexivity.
Qed.


(** * Further properties *)

(** ** Indicator Engine *)

Section EngineColumns.
Import Indicator.
Variable fsqrt : Q -> Q.

Lemma df_get_set_other df k k' v :
  k' <> k -> df_get (df_set df k v) k' = df_get df k'.
Proof.
  intros Hne. rewrite df_get_set.
  destruct (String.eqb_spec k' k); [contradiction|reflexivity].
Qed.

Lemma has_col_get df k : has_col df k = true <-> exists v, df_get df k = ret v.
Proof.
  unfold has_col, df_get. destruct (cols_get k (df_cols df)); simpl.
  - split; eauto.
  - split; [discriminate | intros [v Hv]; discriminate].
Qed.

(** The frame the engine returns on a long history, column by column. *)
Lemma calculate_columns df close volume :
  (5 <= df_len df)%nat ->
  df_get df "close" = ret close ->
  df_get df "volume" = ret volume ->
  exists df',
    calculate_technical_indicators fsqrt df = ret df' /\
    df_dates df' = df_dates df /\
    (forall k, ~ In k indicator_columns -> df_get df' k = df_get df k) /\
    df_get df' "ma5" = ret (rolling_mean 5 close) /\
    df_get df' "ma20" = ret (rolling_mean 20 close) /\
    df_get df' "ma25" = ret (rolling_mean 25 close) /\
    df_get df' "ma50" = ret (rolling_mean 50 close) /\
    df_get df' "ma75" = ret (rolling_mean 75 close) /\
    df_get df' "volume_ma5" = ret (rolling_mean 5 volume) /\
    df_get df' "volume_ma20" = ret (rolling_mean 20 volume) /\
    df_get df' "bb_middle" = ret (rolling_mean 20 close) /\
    df_get df' "bb_upper" =
      ret (zip_with fadd (rolling_mean 20 close)
             (map (fun s => fmul s (Fin 2)) (rolling_std fsqrt 20 close))) /\
    df_get df' "bb_lower" =
      ret (zip_with fsub (rolling_mean 20 close)
             (map (fun s => fmul s (Fin 2)) (rolling_std fsqrt 20 close))) /\
    df_get df' "macd" =
      ret (zip_with fsub (ewm_mean 12 close) (ewm_mean 26 close)) /\
    df_get df' "signal" =
      ret (ewm_mean 9 (zip_with fsub (ewm_mean 12 close) (ewm_mean 26 close))) /\
    df_get df' "histogram" =
      ret (zip_with fsub
             (zip_with fsub (ewm_mean 12 close) (ewm_mean 26 close))
             (ewm_mean 9 (zip_with fsub (ewm_mean 12 close) (ewm_mean 26 close)))) /\
    df_get df' "rsi" =
      ret (map rsi_of_rs (zip_with fdiv (avg_gain close) (avg_loss close))).
Proof.
  intros Hlen Hc Hv. unfold calculate_technical_indicators.
  destruct (Nat.ltb_spec (df_len df) 5) as [Hlt|_]; [lia|].
  rewrite Hc. cbn [bind ret].
  repeat (rewrite !df_get_set; cbn [String.eqb Ascii.eqb Bool.eqb bind ret]).
  rewrite Hv. cbn [bind ret].
  eexists. split; [reflexivity|].
  split; [reflexivity|].
  split.
  { intros k Hk. unfold indicator_columns in Hk. cbn [In] in Hk.
    rewrite !df_get_set_other by (intros ->; tauto). reflexivity. }
  repeat (rewrite !df_get_set; cbn [String.eqb Ascii.eqb Bool.eqb bind ret]).
  repeat split; reflexivity.
Qed.

Lemma rolling_mean_length w (l : list F) :
  length (rolling_mean w l) = length l.
Proof. unfold rolling_mean. apply length_imap. Qed.

Lemma rolling_mean_warm_up w (l : list F) i :
  (S i < w)%nat -> (i < length l)%nat -> rolling_mean w l !! i = Some NaN.
Proof.
  intros Hw Hi. unfold rolling_mean. rewrite list_lookup_imap.
  destruct (lookup_lt_is_Some_2 l i Hi) as [x ->]. simpl.
  unfold mean_at. destruct (Nat.ltb_spec (S i) w); [reflexivity|lia].
Qed.

End EngineColumns.

(** X1. On a history of at least five rows each moving-average column
    ([ma5], [ma20], [ma25], [ma50], [ma75] of the close, [volume_ma5],
    [volume_ma20] of the volume) has one entry per row, and its entry is
    NaN, charted as null, on each of the first [window - 1] rows. *)
Theorem moving_average_columns
    (fsqrt : Q -> Q) (df : Indicator.DataFrame) (close volume : list F) :
  (5 <= Indicator.df_len df)%nat ->
  Indicator.df_get df "close" = ret close ->
  Indicator.df_get df "volume" = ret volume ->
  exists df',
    Indicator.calculate_technical_indicators fsqrt df = ret df' /\
    forall k w s, In (k, w, s) ma_columns ->
      exists src col,
        Indicator.df_get df s = ret src /\
        Indicator.df_get df' k = ret col /\
        length col = length src /\
        (forall i, (S i < w)%nat -> (i < length src)%nat ->
           col !! i = Some NaN /\ Indicator.chart_point NaN = None).
Proof.
  intros Hlen Hc Hv.
  destruct (calculate_columns fsqrt df close volume Hlen Hc Hv)
    as (df' & Hrun & _ & _ & H5 & H20 & H25 & H50 & H75 & Hv5 & Hv20 & _).
  exists df'. split; [exact Hrun|].
  intros k w s Hin. unfold ma_columns in Hin. cbn [In] in Hin.
  assert (Hcol : forall w0 (l : list F),
    length (Indicator.rolling_mean w0 l) = length l /\
    (forall i, (S i < w0)%nat -> (i < length l)%nat ->
       Indicator.rolling_mean w0 l !! i = Some NaN
       /\ Indicator.chart_point NaN = None)).
  { intros w0 l. split; [apply rolling_mean_length|].
    intros i Hw Hi. split; [apply rolling_mean_warm_up; assumption|].
    reflexivity. }
  repeat (destruct Hin as [Heq | Hin];
          [ injection Heq as <- <- <-;
            first
              [ exists close; eexists; split; [exact Hc|];
                split; [eassumption|]; apply Hcol
              | exists volume; eexists; split; [exact Hv|];
                split; [eassumption|]; apply Hcol ] | ]).
  destruct Hin.
Qed.

Lemma moving_average_columns_witness :
  exists df',
    Indicator.calculate_technical_indicators Indicator.approx_sqrt
      (Indicator.frame_of_closes (Indicator.rising 30)) = ret df' /\
    forall k w s, In (k, w, s) ma_columns ->
      exists src col,
        Indicator.df_get (Indicator.frame_of_closes (Indicator.rising 30)) s
        = ret src /\
        Indicator.df_get df' k = ret col /\
        length col = length src /\
        (forall i, (S i < w)%nat -> (i < length src)%nat ->
           col !! i = Some NaN /\ Indicator.chart_point NaN = None).
Proof.
  apply (moving_average_columns Indicator.approx_sqrt
           (Indicator.frame_of_closes (Indicator.rising 30))
           (map Fin (Indicator.rising 30))
           (map (fun _ => Fin 1000) (Indicator.rising 30)));
    vm_compute; solve [reflexivity | lia].
Defined.

(** X2. On a history of at least five rows the engine only adds columns:
    the index and every column that is not one of the fourteen indicator
    columns are returned as they came in, and each of the fourteen
    indicator columns is present in the result. *)
Theorem indicators_extend_the_frame
    (fsqrt : Q -> Q) (df : Indicator.DataFrame) (close volume : list F) :
  (5 <= Indicator.df_len df)%nat ->
  Indicator.df_get df "close" = ret close ->
  Indicator.df_get df "volume" = ret volume ->
  exists df',
    Indicator.calculate_technical_indicators fsqrt df = ret df' /\
    Indicator.df_dates df' = Indicator.df_dates df /\
    (forall k, ~ In k Indicator.indicator_columns ->
       Indicator.df_get df' k = Indicator.df_get df k) /\
    (forall k, In k Indicator.indicator_columns ->
       Indicator.has_col df' k = true).
Proof.
  intros Hlen Hc Hv.
  destruct (calculate_columns fsqrt df close volume Hlen Hc Hv)
    as (df' & Hrun & Hd & Hother & H5 & H20 & H25 & H50 & H75 & Hv5 & Hv20
        & Hbm & Hbu & Hbl & Hm & Hs & Hh & Hrsi).
  exists df'. repeat split; try assumption.
  intros k Hk. unfold Indicator.indicator_columns in Hk. cbn [In] in Hk.
  apply has_col_get.
  repeat (destruct Hk as [<- | Hk]; [eauto|]). destruct Hk.
Qed.

Lemma indicators_extend_the_frame_witness :
  exists df',
    Indicator.calculate_technical_indicators Indicator.approx_sqrt
      (Indicator.frame_of_closes (Indicator.rising 6)) = ret df' /\
    Indicator.df_dates df'
    = Indicator.df_dates (Indicator.frame_of_closes (Indicator.rising 6)) /\
    (forall k, ~ In k Indicator.indicator_columns ->
       Indicator.df_get df' k
       = Indicator.df_get (Indicator.frame_of_closes (Indicator.rising 6)) k) /\
    (forall k, In k Indicator.indicator_columns ->
       Indicator.has_col df' k = true).
Proof.
  apply (indicators_extend_the_frame Indicator.approx_sqrt
           (Indicator.frame_of_closes (Indicator.rising 6))
           (map Fin (Indicator.rising 6))
           (map (fun _ => Fin 1000) (Indicator.rising 6)));
    vm_compute; solve [reflexivity | lia].
Defined.

(** ** Query Builder and Filter Collector *)

Section BuilderShape.
Import Screening.
Context `{Builtins}.

Lemma selected_clauses_sublist (ds : list dimension) :
  sublist (map clause (selected ds)) (map clause ds).
Proof.
  unfold selected. induction ds as [|d r IH]; [constructor|].
  cbn [List.filter map]. destruct (present d); cbn [map].
  - apply sublist_skip. exact IH.
  - apply sublist_cons. exact IH.
Qed.

Lemma clauses_of_dimensions f : map clause (dimensions f) = fixed_clauses.
Proof. reflexivity. Qed.

End BuilderShape.

(** X3. Whenever the query is built, the conditions are a subsequence of
    the twenty-six fixed clause texts of the source, in the source's
    order and each at most once: no text of the request is spliced into
    the SQL, which is the fixed base query followed by those clauses
    joined with [" AND "]; the request's values only travel in the
    parameter list. *)
Theorem conditions_are_fixed_clauses `{Builtins}
    (f : Screening.Filters) (cs : list string) (ps : list Screening.pyval) :
  Screening.build_conditions f = ret (cs, ps) ->
  sublist cs fixed_clauses /\
  NoDup fixed_clauses /\
  Screening.build_query f
  = ret (match cs with
         | [] => Screening.base_query
         | _ => (Screening.base_query ++ " AND "
                 ++ Screening.join " AND " cs)%string
         end, ps).
Proof.
  intros Hb.
  assert (Hq : Screening.build_query f = ret (Screening.query_text cs, ps)).
  { unfold Screening.build_query. rewrite Hb. reflexivity. }
  pose proof (build_conditions_returns f _ Hb) as Hc.
  rewrite (build_conditions_emits f Hc) in Hb.
  apply ret_inj in Hb. unfold Screening.emitted in Hb.
  apply pair_inj in Hb. destruct Hb as [Hcs _]. symmetry in Hcs.
  split; [|split].
  - rewrite Hcs, <- (clauses_of_dimensions f). apply selected_clauses_sublist.
  - apply NoDup_ListNoDup. apply (List.NoDup_count_occ' string_dec).
    intros c Hin. unfold fixed_clauses in Hin. cbn [In] in Hin.
    repeat (destruct Hin as [<- | Hin]; [vm_compute; reflexivity|]).
    destruct Hin.
  - exact Hq.
Qed.

Lemma conditions_are_fixed_clauses_witness :
  let B := AsciiRuntime.ascii_builtins in
  let f := @Screening.collect_filters B
             (<["market" := lit "x' OR '1'='1"]>
             (<["min_per" := lit "10"]> ∅)) in
  let cs := [Screening.c_market; Screening.c_min_per] in
  let ps := [Screening.PStr (lit "x' OR '1'='1");
             Screening.PFloat (Fin 10)] in
  sublist cs fixed_clauses /\
  NoDup fixed_clauses /\
  @Screening.build_query B f
  = ret (match cs with
         | [] => Screening.base_query
         | _ => (Screening.base_query ++ " AND "
                 ++ Screening.join " AND " cs)%string
         end, ps).
Proof.
  intros B f cs ps.
  apply (@conditions_are_fixed_clauses B f cs ps).
  vm_compute. reflexivity.
Defined.

Section CollectorKeys.
Import Screening Endpoint.
Context `{Builtins}.

(** The Filter Record is a function of the recognised keys. *)
Lemma collect_filters_by_keys (a b : gmap string text) :
  (forall k, In k recognised_keys -> a !! k = b !! k) ->
  collect_filters a = collect_filters b.
Proof.
  intros Hk. unfold collect_filters, args_get_int, args_get_float, args_flag,
    args_get.
  f_equal;
    match goal with
    | |- context [a !! ?k] =>
        rewrite (Hk k) by (unfold recognised_keys; cbn [In]; tauto);
        reflexivity
    end.
Qed.

Lemma unrecognised_key_lookup (args : gmap string text) k s k' :
  ~ In k recognised_keys -> In k' recognised_keys ->
  <[k := s]> args !! k' = args !! k'.
Proof.
  intros Hk Hk'. apply lookup_insert_ne. intros ->. contradiction.
Qed.

Lemma collect_filters_without_keys (args : gmap string text) :
  (forall k, In k recognised_keys -> args !! k = None) ->
  collect_filters args = collect_filters ∅.
Proof.
  intros Hk. apply collect_filters_by_keys. intros k Hin.
  rewrite (Hk k Hin), lookup_empty. reflexivity.
Qed.

End CollectorKeys.

(** X4. A key that [enhanced_screening] does not read is ignored: adding
    it to a request, with any value, changes neither the Filter Record
    nor the response. *)
Theorem unrecognised_key_is_ignored `{Builtins}
    (repo : option Endpoint.executor) (args : gmap string text)
    (k : string) (s : text) :
  ~ In k recognised_keys ->
  Screening.collect_filters (<[k := s]> args) = Screening.collect_filters args /\
  Endpoint.enhanced_screening repo (<[k := s]> args)
  = Endpoint.enhanced_screening repo args.
Proof.
  intros Hk.
  assert (E : Screening.collect_filters (<[k := s]> args)
              = Screening.collect_filters args).
  { apply collect_filters_by_keys. intros k' Hk'.
    apply unrecognised_key_lookup; assumption. }
  split; [exact E|]. apply enhanced_screening_by_filters. exact E.
Qed.

Lemma unrecognised_key_is_ignored_witness :
  let B := AsciiRuntime.ascii_builtins in
  let args : gmap string text := <["min_per" := lit "10"]> ∅ in
  @Screening.collect_filters B (<["sort" := lit "per"]> args)
  = @Screening.collect_filters B args /\
  @Endpoint.enhanced_screening B (Some Endpoint.empty_store)
    (<["sort" := lit "per"]> args)
  = @Endpoint.enhanced_screening B (Some Endpoint.empty_store) args.
Proof.
  intros B args.
  apply (@unrecognised_key_is_ignored B (Some Endpoint.empty_store) args
           "sort" (lit "per")).
  unfold recognised_keys. cbn [In].
  intros Hin. repeat (destruct Hin as [Hin | Hin]; [discriminate Hin|]).
  exact Hin.
Defined.

(** X5. A request that carries none of the recognised keys builds the
    fixed base query, with no [AND] clause and an empty parameter list,
    and the response holds one record per row the store returns for it. *)
Theorem unfiltered_request_runs_base_query `{Builtins}
    (execute_query : Endpoint.executor) (args : gmap string text) :
  (forall k, In k recognised_keys -> args !! k = None) ->
  Screening.build_query (Screening.collect_filters args)
  = ret (Screening.base_query, []) /\
  Endpoint.enhanced_screening (Some execute_query) args
  = match r <- execute_query Screening.base_query [] ;;
          Formatter.format_rows r with
    | inr stocks => Endpoint.Ok200 stocks
    | inl e => Endpoint.Error500 e
    end.
Proof.
  intros Hk.
  pose proof (collect_filters_without_keys args Hk) as E.
  assert (Hq : Screening.build_query (Screening.collect_filters args)
               = ret (Screening.base_query, [])).
  { rewrite E. reflexivity. }
  split; [exact Hq|].
  unfold Endpoint.enhanced_screening. rewrite Hq. reflexivity.
Qed.

Lemma unfiltered_request_runs_base_query_witness :
  let B := AsciiRuntime.ascii_builtins in
  let args : gmap string text := <["page" := lit "2"]> ∅ in
  @Screening.build_query B (@Screening.collect_filters B args)
  = ret (Screening.base_query, []) /\
  @Endpoint.enhanced_screening B (Some Endpoint.empty_store) args
  = match r <- Endpoint.empty_store Screening.base_query [] ;;
          @Formatter.format_rows B r with
    | inr stocks => Endpoint.Ok200 stocks
    | inl e => Endpoint.Error500 e
    end.
Proof.
  intros B args.
  apply (@unfiltered_request_runs_base_query B Endpoint.empty_store args).
  intros k Hin. unfold recognised_keys in Hin. cbn [In] in Hin.
  repeat (destruct Hin as [<- | Hin]; [reflexivity|]).
  destruct Hin.
Defined.

(** ** Result Formatter: defaults, failures, shape *)

Section FormatterShape.
Import Formatter.
Context `{Builtins}.

Lemma truthy_false_iff (v : sqlval) : truthy v = false <-> falsy v.
Proof.
  destruct v as [|z|[q| |b|]|s]; simpl.
  - tauto.
  - rewrite negb_false_iff. apply Z.eqb_eq.
  - rewrite negb_false_iff. unfold qzero. apply Qeq_bool_iff.
  - tauto.
  - split; [discriminate | tauto].
  - split; [discriminate | tauto].
  - destruct s; split; congruence.
Qed.

Lemma format_fields_keys (fs : list (string * nat * coercion))
      (row : list sqlval) (r : record) :
  format_fields fs row = ret r ->
  map fst r = map (fun e => fst (fst e)) fs.
Proof.
  revert r. induction fs as [|[[k i] c] rest IH]; intros r Hf.
  - injection Hf as <-. reflexivity.
  - cbn [format_fields] in Hf.
    destruct (row_at row i) as [e|v]; [discriminate|]. cbn [bind] in Hf.
    destruct (coerce c v) as [e|j]; [discriminate|]. cbn [bind] in Hf.
    destruct (format_fields rest row) as [e|r'] eqn:Er; [discriminate|].
    cbn [bind ret] in Hf. injection Hf as <-.
    cbn [map fst]. rewrite (IH r' eq_refl). reflexivity.
Qed.

Lemma format_rows_shape (rows : list (list sqlval)) (rs : list record) :
  format_rows rows = ret rs ->
  length rs = length rows /\
  List.Forall (fun r => map fst r = record_keys) rs /\
  List.Forall2 (fun row r => format_row row = ret r) rows rs.
Proof.
  revert rs. induction rows as [|row rest IH]; intros rs Hf.
  - injection Hf as <-. repeat split; constructor.
  - cbn [format_rows] in Hf.
    destruct (format_row row) as [e|r] eqn:Er; [discriminate|].
    cbn [bind] in Hf.
    destruct (format_rows rest) as [e|rs'] eqn:Ers; [discriminate|].
    cbn [bind ret] in Hf. injection Hf as <-.
    destruct (IH rs' eq_refl) as (Hl & Hk & Hr).
    split; [simpl; congruence|]. split.
    + constructor; [|exact Hk]. apply (format_fields_keys _ row r Er).
    + constructor; assumption.
Qed.

(** A row one of whose fields cannot be coerced is not formatted. *)
Lemma format_fields_fails (fs : list (string * nat * coercion))
      (row : list sqlval) k i c v e :
  In (k, i, c) fs -> row !! i = Some v -> coerce c v = raise e ->
  exists e', format_fields fs row = raise e'.
Proof.
  intros Hin Hv Hc. induction fs as [|[[k0 i0] c0] rest IH]; [destruct Hin|].
  cbn [format_fields].
  destruct (row_at row i0) as [e0|v0] eqn:Ev; [eauto|]. cbn [bind].
  destruct (coerce c0 v0) as [e0|j0] eqn:Ec; [eauto|]. cbn [bind].
  destruct Hin as [Heq | Hin].
  - injection Heq as -> -> ->. unfold row_at in Ev. rewrite Hv in Ev.
    injection Ev as <-. rewrite Hc in Ec. discriminate.
  - destruct (IH Hin) as (e' & ->). eauto.
Qed.

Lemma format_rows_fails (rows : list (list sqlval)) row e :
  In row rows -> format_row row = raise e ->
  exists e', format_rows rows = raise e'.
Proof.
  intros Hin Hr. induction rows as [|r0 rest IH]; [destruct Hin|].
  cbn [format_rows].
  destruct (format_row r0) as [e0|x0] eqn:E0; [eauto|]. cbn [bind].
  destruct Hin as [-> | Hin]; [rewrite Hr in E0; discriminate|].
  destruct (IH Hin) as (e' & ->). eauto.
Qed.

End FormatterShape.

(** X6. A column value that Python reads as false (NULL, the integer 0,
    a zero float of either sign, the empty text) is never cast: the
    fields written with [else None] report it as null, so a stored price
    of 0 comes out as null, and the fields written with [else 0] report
    the integer 0. *)
Theorem falsy_value_takes_default `{Builtins} (v : sqlval) :
  falsy v ->
  Formatter.coerce Formatter.FloatOrNone v = ret Formatter.JNull /\
  Formatter.coerce Formatter.IntOrNone v = ret Formatter.JNull /\
  Formatter.coerce Formatter.Ratio v = ret Formatter.JNull /\
  Formatter.coerce Formatter.FloatOrZero v = ret (Formatter.JInt 0) /\
  Formatter.coerce Formatter.IntOrZero v = ret (Formatter.JInt 0) /\
  (forall row r, row !! 3%nat = Some v ->
     Formatter.format_row row = ret r ->
     Formatter.record_get "price" r = Some Formatter.JNull).
Proof.
  intros Hv. apply truthy_false_iff in Hv.
  assert (Hp : Formatter.coerce Formatter.FloatOrNone v = ret Formatter.JNull).
  { unfold Formatter.coerce. rewrite Hv. reflexivity. }
  repeat split; try (unfold Formatter.coerce; rewrite Hv; reflexivity).
  intros row r Hrow Hf.
  destruct (format_fields_get _ row r "price" 3%nat Formatter.FloatOrNone
              Hf eq_refl) as (v' & j & Hv' & Hj & Hr).
  rewrite Hrow in Hv'. injection Hv' as <-.
  rewrite Hp in Hj. injection Hj as <-. exact Hr.
Qed.

Lemma falsy_value_takes_default_witness :
  let B := AsciiRuntime.ascii_builtins in
  let v := SReal (Fin 0) in
  @Formatter.coerce B Formatter.FloatOrNone v = ret Formatter.JNull /\
  @Formatter.coerce B Formatter.IntOrNone v = ret Formatter.JNull /\
  @Formatter.coerce B Formatter.Ratio v = ret Formatter.JNull /\
  @Formatter.coerce B Formatter.FloatOrZero v = ret (Formatter.JInt 0) /\
  @Formatter.coerce B Formatter.IntOrZero v = ret (Formatter.JInt 0) /\
  (forall row r, row !! 3%nat = Some v ->
     @Formatter.format_row B row = ret r ->
     Formatter.record_get "price" r = Some Formatter.JNull).
Proof.
  intros B v.
  apply (@falsy_value_takes_default B v). simpl. reflexivity.
Defined.

(** X7. The guard on [per] and [pbr] lets through texts that [float]
    rejects (digits with two dots, a trailing hyphen): for such a stored
    text the cast raises ValueError, the row is not formatted, and a
    screening request whose result contains the row answers HTTP 500. *)
Theorem unparsable_ratio_fails_request `{Builtins}
    (execute_query : Endpoint.executor) (args : gmap string text)
    (q : string) (ps : list Screening.pyval)
    (rows : list (list sqlval)) (row : list sqlval) (s : text) :
  Screening.build_query (Screening.collect_filters args) = ret (q, ps) ->
  execute_query q ps = ret rows ->
  In row rows ->
  row !! 9%nat = Some (SText s) ->
  s <> [] ->
  Formatter.looks_numeric (SText s) = true ->
  py_float s = None ->
  Formatter.coerce Formatter.Ratio (SText s) = raise ValueError /\
  (exists e, Formatter.format_row row = raise e) /\
  (exists e, Endpoint.enhanced_screening (Some execute_query) args
             = Endpoint.Error500 e).
Proof.
  intros Hq Hx Hin Hrow Hs Hg Hf.
  assert (Hc : Formatter.coerce Formatter.Ratio (SText s) = raise ValueError).
  { unfold Formatter.coerce. rewrite Hg.
    destruct s; [contradiction|]. cbn [Formatter.truthy andb].
    cbn [Formatter.float_of]. rewrite Hf. reflexivity. }
  split; [exact Hc|].
  assert (Hr : exists e, Formatter.format_row row = raise e).
  { unfold Formatter.format_row.
    apply (format_fields_fails Formatter.fields row "per" 9%nat
             Formatter.Ratio (SText s) ValueError); [|exact Hrow|exact Hc].
    unfold Formatter.fields. do 9 right. left. reflexivity. }
  split; [exact Hr|].
  destruct Hr as (e & Hr).
  destruct (format_rows_fails rows row e Hin Hr) as (e' & He').
  exists e'. unfold Endpoint.enhanced_screening.
  rewrite Hq. cbn [bind ret fst snd]. rewrite Hx. cbn [bind ret].
  rewrite He'. reflexivity.
Qed.

Lemma unparsable_ratio_fails_request_witness :
  let B := AsciiRuntime.ascii_builtins in
  let row := Formatter.row_with_per (SText (lit "7203")) (SText (lit "Toyota"))
               (SText (lit "2024-01-05")) (SText (lit "1.2.3")) in
  let store : Endpoint.executor := fun _ _ => ret [row] in
  @Formatter.coerce B Formatter.Ratio (SText (lit "1.2.3"))
  = raise ValueError /\
  (exists e, @Formatter.format_row B row = raise e) /\
  (exists e, @Endpoint.enhanced_screening B (Some store) ∅
             = Endpoint.Error500 e).
Proof.
  intros B row store.
  apply (@unparsable_ratio_fails_request B store ∅ Screening.base_query []
           [row] row (lit "1.2.3")).
  - reflexivity.
  - reflexivity.
  - left. reflexivity.
  - reflexivity.
  - discriminate.
  - vm_compute. reflexivity.
  - vm_compute. reflexivity.
Defined.

(** X8. A successful screening response is the formatting of the rows
    the store returned for the built query: as many records as rows, in
    the same order, and every record carries exactly the forty-six keys of
    the dictionary literal in its order. *)
Theorem screening_success_shape `{Builtins}
    (execute_query : Endpoint.executor) (args : gmap string text)
    (stocks : list Formatter.record) :
  Endpoint.enhanced_screening (Some execute_query) args
  = Endpoint.Ok200 stocks ->
  exists q ps rows,
    Screening.build_query (Screening.collect_filters args) = ret (q, ps) /\
    execute_query q ps = ret rows /\
    length stocks = length rows /\
    List.Forall (fun r => map fst r = record_keys) stocks /\
    List.Forall2 (fun row r => Formatter.format_row row = ret r) rows stocks /\
    length record_keys = 46%nat /\ NoDup record_keys.
Proof.
  intros Hok. unfold Endpoint.enhanced_screening in Hok.
  destruct (Screening.build_query (Screening.collect_filters args))
    as [e|[q ps]] eqn:Hq; [discriminate|].
  cbn [bind fst snd] in Hok.
  destruct (execute_query q ps) as [e|rows] eqn:Hx; [discriminate|].
  cbn [bind] in Hok.
  destruct (Formatter.format_rows rows) as [e|rs] eqn:Hf; [discriminate|].
  injection Hok as <-.
  destruct (format_rows_shape rows rs Hf) as (Hl & Hk & Hr).
  exists q, ps, rows. repeat split; try assumption; try reflexivity.
  apply NoDup_ListNoDup. apply (List.NoDup_count_occ' string_dec).
  intros k Hin. unfold record_keys, Formatter.fields in Hin.
  cbn [map fst In] in Hin.
  repeat (destruct Hin as [<- | Hin]; [vm_compute; reflexivity|]).
  destruct Hin.
Qed.

Lemma screening_success_shape_witness :
  let B := AsciiRuntime.ascii_builtins in
  let row := Formatter.null_row (SText (lit "7203")) (SText (lit "Toyota"))
               (SText (lit "2024-01-05")) in
  let store : Endpoint.executor := fun _ _ => ret [row; row] in
  exists stocks q ps rows,
    @Endpoint.enhanced_screening B (Some store) ∅ = Endpoint.Ok200 stocks /\
    @Screening.build_query B (@Screening.collect_filters B ∅) = ret (q, ps) /\
    store q ps = ret rows /\
    length stocks = length rows /\
    List.Forall (fun r => map fst r = record_keys) stocks /\
    List.Forall2 (fun row r => @Formatter.format_row B row = ret r)
                 rows stocks /\
    length record_keys = 46%nat /\ NoDup record_keys.
Proof.
  intros B row store.
  eexists.
  assert (Hok : @Endpoint.enhanced_screening B (Some store) ∅
                = Endpoint.Ok200 _) by (vm_compute; reflexivity).
  destruct (@screening_success_shape B store ∅ _ Hok)
    as (q & ps & rows & H1 & H2 & H3 & H4 & H5 & H6 & H7).
  exists q, ps, rows. repeat split; assumption.
Defined.

(** ** AI Narrative Adapter: the fallback on incomplete rows *)

Section FallbackFacts.
Import Narrative.
Context {NM : Numerics}.

Lemma bind_raises {A B} (m : M A) (k : A -> M B) :
  (forall a, exists e, k a = raise e) -> exists e, bind m k = raise e.
Proof.
  intros Hk. destruct m as [e | a]; cbn [bind]; [|apply Hk].
  exists e. reflexivity.
Qed.

Lemma bind_raised {A B} (m : M A) (k : A -> M B) :
  (exists e, m = raise e) -> exists e, bind m k = raise e.
Proof. intros [e ->]. exists e. reflexivity. Qed.

Lemma py_get_present k d items v :
  items_get k items = Some v -> py_get k d (JsObj items) = ret v.
Proof. intros E. cbn [py_get]. rewrite E. reflexivity. Qed.

Lemma positive_count_raises rs items :
  In (JsObj items) rs ->
  items_get (lit "change_percent") items = Some JsNull ->
  exists e, positive_count rs = raise e.
Proof.
  intros Hin Hnull. induction rs as [|s rs IH]; [destruct Hin|].
  cbn [positive_count]. destruct Hin as [-> | Hin].
  - rewrite (py_get_present _ _ _ _ Hnull). exists TypeError. reflexivity.
  - apply bind_raises. intros v. apply bind_raises. intros b.
    apply bind_raised, IH, Hin.
Qed.

Lemma high_volume_raises rs items :
  In (JsObj items) rs ->
  items_get (lit "volume_ratio") items = Some JsNull ->
  exists e, high_volume rs = raise e.
Proof.
  intros Hin Hnull. induction rs as [|s rs IH]; [destruct Hin|].
  cbn [high_volume]. destruct Hin as [-> | Hin].
  - rewrite (py_get_present _ _ _ _ Hnull). exists TypeError. reflexivity.
  - apply bind_raises. intros v. apply bind_raises. intros b.
    apply bind_raised, IH, Hin.
Qed.

Lemma demo_statistics_raises rs items :
  In (JsObj items) rs ->
  items_get (lit "change_percent") items = Some JsNull
  \/ items_get (lit "volume_ratio") items = Some JsNull ->
  exists e, demo_statistics rs = raise e.
Proof.
  intros Hin Hnull. destruct rs as [|s rs]; [destruct Hin|].
  unfold demo_statistics.
  apply bind_raises. intros values. apply bind_raises. intros avg.
  destruct Hnull as [Hnull | Hnull].
  - apply bind_raised. exact (positive_count_raises _ _ Hin Hnull).
  - do 9 (apply bind_raises; intros ?).
    apply bind_raised. exact (high_volume_raises _ _ Hin Hnull).
Qed.

End FallbackFacts.

(** X9. A result row whose [change_percent] or [volume_ratio] is null
    makes the rule-based fallback raise instead of returning a text, and
    with it every request the fallback resolves: the one made without a
    credential, whatever the LLM would answer. *)
Theorem fallback_raises_on_null_field
    {NM : Narrative.Numerics} (query : text)
    (rs : list Narrative.json) (items : list (text * Narrative.json)) :
  In (Narrative.JsObj items) rs ->
  Narrative.items_get (lit "change_percent") items = Some Narrative.JsNull
  \/ Narrative.items_get (lit "volume_ratio") items
     = Some Narrative.JsNull ->
  exists e,
    Narrative._get_demo_screening_analysis query rs = raise e /\
    e <> RequestsTimeout /\
    forall post,
      Narrative.analyze_screening_results None query rs post = raise e.
Proof.
  intros Hin Hnull.
  assert (Hd : exists e,
             Narrative._get_demo_screening_analysis query rs = raise e).
  { unfold Narrative._get_demo_screening_analysis.
    apply bind_raises. intros n. apply bind_raised.
    exact (demo_statistics_raises rs items Hin Hnull). }
  destruct Hd as [e He]. exists e. split; [exact He|].
  split.
  - intros ->. exact (quiet_demo query rs He).
  - intros post.
    pose proof (handler_keeps_fallback query rs) as Hh.
    unfold Narrative.analyze_screening_results, Narrative.analyze_body.
    destruct rs as [|s rs]; [destruct Hin|].
    cbn [Narrative.no_credential]. rewrite Hh.
    unfold Narrative.fallback. rewrite He. reflexivity.
Qed.

Lemma fallback_raises_on_null_field_witness :
  let NM := Narrative.Runtime.numerics in
  let items :=
    [(lit "code", Narrative.JsStr (lit "6758"));
     (lit "change_percent", Narrative.JsFloat (Fin (3 # 2)));
     (lit "volume_ratio", Narrative.JsNull)] in
  exists e,
    Narrative._get_demo_screening_analysis (lit "outlook?")
      [Narrative.JsObj items] = raise e /\
    e <> RequestsTimeout /\
    forall post,
      Narrative.analyze_screening_results None (lit "outlook?")
        [Narrative.JsObj items] post = raise e.
Proof.
  intros NM items.
  apply (@fallback_raises_on_null_field NM (lit "outlook?")
           [Narrative.JsObj items] items).
  - left. reflexivity.
  - right. reflexivity.
Defined.

(** X10. [analyze_screening_results] does not depend on the LLM when the
    results are empty (it answers with the fixed text that there is
    nothing to analyse) or when no credential is configured; with a
    credential and results, a 200 answer that carries a
    [choices[0].message.content] resolves to that content. *)
Theorem analysis_without_and_with_the_llm
    {NM : Narrative.Numerics} (api_key : option text) (query : text)
    (rs : list Narrative.json) (post : M Narrative.http_response) :
  Narrative.analyze_screening_results api_key query [] post
  = ret (Narrative.JsStr Narrative.no_stocks_message) /\
  (Narrative.no_credential api_key = true ->
   forall post',
     Narrative.analyze_screening_results api_key query rs post
     = Narrative.analyze_screening_results api_key query rs post') /\
  (forall content,
     Narrative.no_credential api_key = false -> rs <> [] ->
     Narrative.content_reached post = Some content ->
     Narrative.analyze_screening_results api_key query rs post
     = ret content).
Proof.
  split; [reflexivity|]. split.
  - intros Hk post'.
    unfold Narrative.analyze_screening_results, Narrative.analyze_body.
    destruct rs; [reflexivity|]. rewrite Hk. reflexivity.
  - intros content Hk Hrs Hc.
    unfold Narrative.analyze_screening_results, Narrative.analyze_body.
    destruct rs as [|s rs]; [contradiction|]. rewrite Hk.
    unfold Narrative.content_reached in Hc.
    destruct post as [e | response]; [discriminate|]. cbn [bind].
    destruct (Narrative.status_code response =? 200); [|discriminate].
    destruct (Narrative.json_body response) as [result|]; [|discriminate].
    cbn [of_option bind ret].
    destruct (Narrative.has_choices result) as [e | [|]];
      try discriminate.
    cbn [bind].
    destruct (Narrative.content_of result) as [e | c]; [discriminate|].
    injection Hc as ->. reflexivity.
Qed.

